(** * Heart-rate consumer: rolling window, stall detection, anomaly alerts

    A shallow embedding of [consumers/csv_consumer_vega.py].  The Python
    functions are translated one by one; what they use from the Python
    runtime ([json.loads], [float], [int], [os.getenv], [deque], [max],
    [min], the comparison and subtraction operators) is given the meaning
    CPython gives it on the values that can reach this program: the
    documents [json.loads] produces and binary64 floats. *)

From Stdlib Require Import ZArith QArith List String Ascii Bool Lia.
From Stdlib Require Import Floats.SpecFloat.
Import ListNotations.

Local Open Scope string_scope.
Local Open Scope list_scope.
Local Open Scope Z_scope.

(** ** Python values *)

(** A Python [float] is an IEEE 754 binary64 number. *)
Definition prec : Z := 53.
Definition emax : Z := 1024.

Definition float : Type := spec_float.

(** The objects [json.loads] can return: [None], [bool], [int], [float],
    [str], [list] and [dict] (in insertion order, keys unique). *)
#[warnings="-register-all"]
Inductive pyval : Type :=
| PNone
| PBool (b : bool)
| PInt (z : Z)
| PFloat (f : float)
| PStr (s : string)
| PList (l : list pyval)
| PDict (kv : list (string * pyval)).

(** The exception classes that occur; every one derives from
    [Exception], and [JSONDecodeError] derives from [ValueError]. *)
Inductive exn : Type :=
| JSONDecodeError
| ValueError
| TypeError
| AttributeError
| OverflowError
| RecursionError.

Definition isinstance_JSONDecodeError (e : exn) : bool :=
  match e with JSONDecodeError => true | _ => false end.

Definition isinstance_Exception (e : exn) : bool :=
  match e with
  | JSONDecodeError | ValueError | TypeError
  | AttributeError | OverflowError | RecursionError => true
  end.

(** *** Numbers

    [bool], [int] and [float] compare with each other by their exact
    mathematical value; a NaN is unordered with everything. *)
Inductive xnum : Type :=
| XNaN
| XNegInf
| XFin (q : Q)
| XPosInf.

(** The rational [m * 2^e]. *)
Definition Q_of_dyadic (m e : Z) : Q :=
  match e with
  | Z0 => inject_Z m
  | Zpos _ => inject_Z (m * 2 ^ e)
  | Zneg p => Qmake m (2 ^ p)
  end.

Definition xnum_of_float (f : float) : xnum :=
  match f with
  | S754_zero _ => XFin 0
  | S754_infinity s => if s then XNegInf else XPosInf
  | S754_nan => XNaN
  | S754_finite s m e => XFin (Q_of_dyadic (if s then Zneg m else Zpos m) e)
  end.

Definition Z_of_bool (b : bool) : Z := if b then 1 else 0.

Definition num_value (v : pyval) : option xnum :=
  match v with
  | PBool b => Some (XFin (inject_Z (Z_of_bool b)))
  | PInt z => Some (XFin (inject_Z z))
  | PFloat f => Some (xnum_of_float f)
  | _ => None
  end.

Definition is_number (v : pyval) : bool :=
  match v with
  | PBool _ | PInt _ | PFloat _ => true
  | _ => false
  end.

Definition xcompare (x y : xnum) : option comparison :=
  match x, y with
  | XNaN, _ | _, XNaN => None
  | XNegInf, XNegInf => Some Eq
  | XNegInf, _ => Some Lt
  | _, XNegInf => Some Gt
  | XPosInf, XPosInf => Some Eq
  | XPosInf, _ => Some Gt
  | _, XPosInf => Some Lt
  | XFin p, XFin q => Some (Qcompare p q)
  end.

Definition xltb (x y : xnum) : bool :=
  match xcompare x y with Some Lt => true | _ => false end.

Definition xleb (x y : xnum) : bool :=
  match xcompare x y with Some Lt | Some Eq => true | _ => false end.

Definition xeqb (x y : xnum) : bool :=
  match xcompare x y with Some Eq => true | _ => false end.


(** *** Results and association lists *)

(** A Python expression either yields a value or raises. *)
Definition result (A : Type) : Type := (exn + A)%type.

Definition rbind {A B : Type} (r : result A) (k : A -> result B) : result B :=
  match r with
  | inl e => inl e
  | inr a => k a
  end.

Fixpoint assoc {A : Type} (key : string) (kv : list (string * A)) : option A :=
  match kv with
  | [] => None
  | (k, v) :: rest => if String.eqb key k then Some v else assoc key rest
  end.

(** *** Operators *)

Inductive cmpop : Type := OpLt | OpLe | OpGt | OpGe.

Definition xnum_cmp (op : cmpop) (x y : xnum) : bool :=
  match op with
  | OpLt => xltb x y
  | OpLe => xleb x y
  | OpGt => xltb y x
  | OpGe => xleb y x
  end.

Definition str_cmp (op : cmpop) (s t : string) : bool :=
  match op with
  | OpLt => String.ltb s t
  | OpLe => String.leb s t
  | OpGt => String.ltb t s
  | OpGe => String.leb t s
  end.

Definition len_cmp (op : cmpop) (n m : nat) : bool :=
  match op with
  | OpLt => Nat.ltb n m
  | OpLe => Nat.leb n m
  | OpGt => Nat.ltb m n
  | OpGe => Nat.leb m n
  end.

(** [a == b].  Numbers are equal when their values are; a NaN equals
    nothing.  (Object identity is not part of [pyval]: CPython's [is]
    shortcut inside container comparison, which only matters for one NaN
    object shared by two containers, is left out.) *)
Fixpoint py_eq (a b : pyval) {struct a} : bool :=
  match a, b with
  | PNone, PNone => true
  | PStr s, PStr t => String.eqb s t
  | PList l, PList l' =>
      (fix all2 (l l' : list pyval) {struct l} : bool :=
         match l, l' with
         | [], [] => true
         | x :: r, y :: r' => py_eq x y && all2 r r'
         | _, _ => false
         end) l l'
  | PDict kv, PDict kv' =>
      Nat.eqb (List.length kv) (List.length kv') &&
      (fix sub (kv : list (string * pyval)) {struct kv} : bool :=
         match kv with
         | [] => true
         | (k, v) :: r =>
             match assoc k kv' with
             | Some v' => py_eq v v'
             | None => false
             end && sub r
         end) kv
  | _, _ =>
      match num_value a, num_value b with
      | Some x, Some y => xeqb x y
      | _, _ => false
      end
  end.

(** [a < b], [a <= b], [a > b], [a >= b]: defined between numbers,
    between strings and between lists (first differing position, else by
    length); any other pairing raises [TypeError]. *)
Fixpoint py_richcmp (op : cmpop) (a b : pyval) {struct a} : result bool :=
  match a, b with
  | PStr s, PStr t => inr (str_cmp op s t)
  | PList l, PList l' =>
      (fix scan (l l' : list pyval) {struct l} : result bool :=
         match l, l' with
         | x :: r, y :: r' =>
             if py_eq x y then scan r r' else py_richcmp op x y
         | _, _ => inr (len_cmp op (List.length l) (List.length l'))
         end) l l'
  | _, _ =>
      match num_value a, num_value b with
      | Some x, Some y => inr (xnum_cmp op x y)
      | _, _ => inl TypeError
      end
  end.

(** [float(n)] for an [int]: the nearest binary64, ties to even;
    [OverflowError] when that is out of range. *)
Definition Z2float (z : Z) : float := binary_normalize prec emax z 0 false.

Definition float_of_int (z : Z) : result float :=
  match Z2float z with
  | S754_infinity _ => inl OverflowError
  | f => inr f
  end.

(** [a - b].  [int - int] is exact; with a [float] operand the other one
    is converted to [float] first. *)
Definition py_sub (a b : pyval) : result pyval :=
  match a, b with
  | PFloat f, PFloat g => inr (PFloat (SFsub prec emax f g))
  | PFloat f, (PInt z) =>
      rbind (float_of_int z) (fun g => inr (PFloat (SFsub prec emax f g)))
  | PFloat f, (PBool c) =>
      rbind (float_of_int (Z_of_bool c)) (fun g => inr (PFloat (SFsub prec emax f g)))
  | PInt z, PFloat g =>
      rbind (float_of_int z) (fun f => inr (PFloat (SFsub prec emax f g)))
  | PBool c, PFloat g =>
      rbind (float_of_int (Z_of_bool c)) (fun f => inr (PFloat (SFsub prec emax f g)))
  | PInt x, PInt y => inr (PInt (x - y))
  | PInt x, PBool c => inr (PInt (x - Z_of_bool c))
  | PBool c, PInt y => inr (PInt (Z_of_bool c - y))
  | PBool c, PBool c' => inr (PInt (Z_of_bool c - Z_of_bool c'))
  | _, _ => inl TypeError
  end.

(** [max(xs)] and [min(xs)]: the first item is the candidate, a later
    item replaces it when [item > candidate] (resp. [item < candidate]);
    an empty argument raises [ValueError]. *)
Fixpoint py_select (op : cmpop) (best : pyval) (xs : list pyval) : result pyval :=
  match xs with
  | [] => inr best
  | item :: rest =>
      rbind (py_richcmp op item best)
            (fun c => py_select op (if c then item else best) rest)
  end.

Definition py_max (xs : list pyval) : result pyval :=
  match xs with
  | [] => inl ValueError
  | x :: rest => py_select OpGt x rest
  end.

Definition py_min (xs : list pyval) : result pyval :=
  match xs with
  | [] => inl ValueError
  | x :: rest => py_select OpLt x rest
  end.

(** [obj.get(key)]: a [dict] answers with the value or [None]; no other
    JSON value has a [get] attribute. *)
Definition py_get (obj : pyval) (key : string) : result pyval :=
  match obj with
  | PDict kv =>
      match assoc key kv with
      | Some v => inr v
      | None => inr PNone
      end
  | _ => inl AttributeError
  end.

Definition is_None (v : pyval) : bool :=
  match v with PNone => true | _ => false end.

(** [f"{v}"]: what matters of the text is whether it can be made.
    CPython refuses to convert an [int] of more than 4300 digits to text
    with [ValueError], also inside a list or a dict; it applies the same
    limit when [int] and [json.loads] read a number. *)
Definition int_max_str_digits : Z := 4300.

Fixpoint py_format (v : pyval) {struct v} : result unit :=
  match v with
  | PInt z =>
      if Z.abs z <? 10 ^ int_max_str_digits then inr tt else inl ValueError
  | PList l =>
      (fix each (l : list pyval) {struct l} : result unit :=
         match l with
         | [] => inr tt
         | x :: r => rbind (py_format x) (fun _ => each r)
         end) l
  | PDict kv =>
      (fix each (kv : list (string * pyval)) {struct kv} : result unit :=
         match kv with
         | [] => inr tt
         | (_, x) :: r => rbind (py_format x) (fun _ => each r)
         end) kv
  | _ => inr tt
  end.

(** [int(f)] for a [float]: towards zero; a NaN or an infinity is
    refused. *)
Definition float_trunc (f : float) : result Z :=
  match f with
  | S754_zero _ => inr 0
  | S754_infinity _ => inl OverflowError
  | S754_nan => inl ValueError
  | S754_finite s m e =>
      let a := match e with
               | Z0 => Zpos m
               | Zpos _ => Zpos m * 2 ^ e
               | Zneg p => Zpos m / 2 ^ Zpos p
               end in
      inr (if s then - a else a)
  end.

(** ** The runtime's parsers

    [json.loads], and [float] and [int] applied to a [str], belong to the
    Python runtime, not to this program: the program is verified for every
    behaviour they may have.  A decoder failure is any exception
    ([JSONDecodeError], but also [RecursionError] on deep nesting or
    [ValueError] on an oversized integer literal). *)
Class Builtins : Type := {
  json_loads : string -> result pyval;
  float_of_str : string -> result float;
  int_of_str : string -> result Z
}.

Section Program.

Context {B : Builtins}.

(** [float(x)] and [int(x)]: [os.getenv] hands them the text of the
    variable, or the default written in the call. *)
Definition py_float (x : pyval) : result float :=
  match x with
  | PFloat f => inr f
  | PInt z => float_of_int z
  | PBool b => float_of_int (Z_of_bool b)
  | PStr s => float_of_str s
  | _ => inl TypeError
  end.

Definition py_int (x : pyval) : result Z :=
  match x with
  | PInt z => inr z
  | PBool b => inr (Z_of_bool b)
  | PFloat f => float_trunc f
  | PStr s => int_of_str s
  | _ => inl TypeError
  end.

(** ** The deque

    [collections.deque] with its [maxlen]: [append] adds on the right and,
    when that makes the deque longer than [maxlen], drops one item on the
    left. *)
Record deque : Type := mkdeque {
  items : list pyval;
  maxlen : option nat
}.

(** [deque(maxlen=n)]: [n] is first converted to a C [ssize_t], of 64
    bits, which raises [OverflowError] outside [-2^63 .. 2^63 - 1]; then a
    negative [n] is refused with [ValueError]. *)
Definition deque_new (n : Z) : result deque :=
  if ((n <? - 2 ^ 63) || (2 ^ 63 <=? n))%Z then inl OverflowError
  else if (n <? 0)%Z then inl ValueError
  else inr (mkdeque [] (Some (Z.to_nat n))).

Definition deque_append (d : deque) (x : pyval) : deque :=
  let xs := items d ++ [x] in
  match maxlen d with
  | Some n => if (n <? List.length xs)%nat
              then mkdeque (tl xs) (maxlen d)
              else mkdeque xs (maxlen d)
  | None => mkdeque xs (maxlen d)
  end.

Definition len (d : deque) : Z := Z.of_nat (List.length (items d)).

(** ** Log records

    One constructor per message template of the source; the arguments are
    the values the f-string interpolates.  Of all these values one is
    computed by the program, the range of the window in [detect_stall]:
    there the f-string can fail, see [py_format].  The others are what
    [json.loads], [int] and [float] handed out, or a length, and have a
    text. *)
Inductive level : Type := DEBUG | INFO | WARNING | ERROR.

Inductive template : Type :=
| Kafka_topic (topic : string)
| Kafka_consumer_group_id (group_id : string)
| Max_stall_variation (hr_variation : float)
| Rolling_window_size (window_size : Z)
| High_threshold (threshold_high : float)
| Low_threshold (threshold_low : float)
| Waiting_for (length : Z) (WINDOW_SIZE : Z)
| Heart_rate_range (hr_range : pyval) (is_stalled : bool)
| ALERT_high (heart_rate : pyval)
| ALERT_low (heart_rate : pyval)
| Raw_message (message : string)
| Processed_JSON_message (data : pyval)
| Invalid_message_format (message : string)
| STALL_DETECTED (timestamp heart_rate : pyval) (window_size : Z)
| JSON_decoding_error (message : string) (e : exn)
| Error_processing_message (message : string) (e : exn)
| START_consumer
| Consumer_topic_group (topic group_id : string)
| Polling_messages (topic : string)
| Received_message (offset : Z) (message_str : string)
| Error_while_consuming (e : exn)
| Consumer_closed (topic : string).

Definition log_record : Type := (level * template)%type.

(** ** The world the program runs in

    [os_environ] is the process environment the getters read,
    [rolling_window] the one deque [main] creates and hands to every
    [process_message] call, [sink] what has been logged so far. *)
Record world : Type := mkworld {
  os_environ : list (string * string);
  rolling_window : deque;
  sink : list log_record
}.

(** A statement runs in a world, leaves a world, and returns or raises;
    what it did to the world before raising stays done. *)
Definition M (A : Type) : Type := world -> result A * world.

Definition ret {A : Type} (a : A) : M A := fun w => (inr a, w).

Definition raise {A : Type} (e : exn) : M A := fun w => (inl e, w).

Definition bind {A C : Type} (m : M A) (k : A -> M C) : M C :=
  fun w =>
    match m w with
    | (inl e, w') => (inl e, w')
    | (inr a, w') => k a w'
    end.

Definition lift {A : Type} (r : result A) : M A := fun w => (r, w).

Notation "x <- m ;; k" := (bind m (fun x => k))
  (at level 61, m at next level, right associativity).
Notation "m ;; k" := (bind m (fun _ => k))
  (at level 61, right associativity).

(** [try: body / except E1 as e: h1 / except E2 as e: h2]: the first
    clause whose class the exception is an instance of handles it; with
    no such clause the exception goes on to the caller. *)
Fixpoint dispatch (handlers : list ((exn -> bool) * (exn -> M unit)))
    (e : exn) : M unit :=
  match handlers with
  | [] => raise e
  | (isinstance, handler) :: rest =>
      if isinstance e then handler e else dispatch rest e
  end.

Definition try_except (body : M unit)
    (handlers : list ((exn -> bool) * (exn -> M unit))) : M unit :=
  fun w =>
    match body w with
    | (inl e, w') => dispatch handlers e w'
    | (inr tt, w') => (inr tt, w')
    end.

(** Modelled from the spec: the logger of [utils.utils_logger] is not
    among the sources; per the spec it is a sink that accepts leveled
    events, so a logging call appends one record and never raises. *)
Definition logger (lv : level) (t : template) : M unit :=
  fun w => (inr tt, mkworld (os_environ w) (rolling_window w) (sink w ++ [(lv, t)])).

(** [os.getenv(key, default)] *)
Definition os_getenv (key : string) (default : pyval) : M pyval :=
  fun w =>
    (inr match assoc key (os_environ w) with
         | Some s => PStr s
         | None => default
         end, w).

(** [rolling_window.append(x)] on the deque of the world. *)
Definition rolling_window_append (x : pyval) : M unit :=
  fun w => (inr tt, mkworld (os_environ w) (deque_append (rolling_window w) x) (sink w)).

Definition the_rolling_window : M deque :=
  fun w => (inr (rolling_window w), w).

Definition set_rolling_window (d : deque) : M unit :=
  fun w => (inr tt, mkworld (os_environ w) d (sink w)).

(** ** Getter functions for the environment variables *)

Definition get_kafka_topic : M string :=
  v <- os_getenv "HEART_TOPIC" (PStr "unknown_topic") ;;
  let topic := match v with PStr s => s | _ => "unknown_topic" end in
  logger INFO (Kafka_topic topic) ;;
  ret topic.

Definition get_kafka_consumer_group_id : M string :=
  v <- os_getenv "HEART_CONSUMER_GROUP_ID" (PStr "default_group") ;;
  let group_id := match v with PStr s => s | _ => "default_group" end in
  logger INFO (Kafka_consumer_group_id group_id) ;;
  ret group_id.

Definition get_stall_threshold : M float :=
  v <- os_getenv "HEART_STALL_THRESHOLD_BPM" (PFloat (Z2float 5)) ;;
  hr_variation <- lift (py_float v) ;;
  logger INFO (Max_stall_variation hr_variation) ;;
  ret hr_variation.

Definition get_rolling_window_size : M Z :=
  v <- os_getenv "HEART_ROLLING_WINDOW_SIZE" (PInt 5) ;;
  window_size <- lift (py_int v) ;;
  logger INFO (Rolling_window_size window_size) ;;
  ret window_size.

Definition get_heart_rate_threshold_high : M float :=
  v <- os_getenv "HEART_RATE_THRESHOLD_HIGH" (PFloat (Z2float 120)) ;;
  threshold_high <- lift (py_float v) ;;
  logger INFO (High_threshold threshold_high) ;;
  ret threshold_high.

Definition get_heart_rate_threshold_low : M float :=
  v <- os_getenv "HEART_RATE_THRESHOLD_LOW" (PFloat (Z2float 40)) ;;
  threshold_low <- lift (py_float v) ;;
  logger INFO (Low_threshold threshold_low) ;;
  ret threshold_low.

(** ** Stall detection *)

Definition detect_stall (rolling_window_deque : deque) : M bool :=
  WINDOW_SIZE <- get_rolling_window_size ;;
  if (len rolling_window_deque <? WINDOW_SIZE)%Z then
    logger DEBUG (Waiting_for (len rolling_window_deque) WINDOW_SIZE) ;;
    ret false
  else
    hi <- lift (py_max (items rolling_window_deque)) ;;
    lo <- lift (py_min (items rolling_window_deque)) ;;
    hr_range <- lift (py_sub hi lo) ;;
    threshold <- get_stall_threshold ;;
    is_stalled <- lift (py_richcmp OpLe hr_range (PFloat threshold)) ;;
    lift (py_format hr_range) ;;
    logger DEBUG (Heart_rate_range hr_range is_stalled) ;;
    ret is_stalled.

(** ** Anomaly alerting *)

Definition alert_on_heart_rate_anomaly (heart_rate : pyval) : M unit :=
  high_threshold <- get_heart_rate_threshold_high ;;
  low_threshold <- get_heart_rate_threshold_low ;;
  above <- lift (py_richcmp OpGt heart_rate (PFloat high_threshold)) ;;
  if above then
    logger WARNING (ALERT_high heart_rate)
  else
    below <- lift (py_richcmp OpLt heart_rate (PFloat low_threshold)) ;;
    if below then
      logger WARNING (ALERT_low heart_rate)
    else
      ret tt.

(** ** Processing one message

    [rolling_window] of the source is the deque of the world. *)

Definition process_message_body (message : string) (window_size : Z) : M unit :=
  logger DEBUG (Raw_message message) ;;
  data <- lift (json_loads message) ;;
  heart_rate <- lift (py_get data "heart_rate") ;;
  timestamp <- lift (py_get data "timestamp") ;;
  logger INFO (Processed_JSON_message data) ;;
  if is_None heart_rate || is_None timestamp then
    logger ERROR (Invalid_message_format message)
  else
    alert_on_heart_rate_anomaly heart_rate ;;
    rolling_window_append heart_rate ;;
    w <- the_rolling_window ;;
    stalled <- detect_stall w ;;
    if stalled then
      logger INFO (STALL_DETECTED timestamp heart_rate window_size)
    else
      ret tt.

Definition process_message (message : string) (window_size : Z) : M unit :=
  try_except (process_message_body message window_size)
    [ (isinstance_JSONDecodeError,
       fun e => logger ERROR (JSON_decoding_error message e));
      (isinstance_Exception,
       fun e => logger ERROR (Error_processing_message message e)) ].

(** ** The consumer loop *)

(** Modelled from the spec: [create_kafka_consumer] of
    [utils.utils_consumer] is not among the sources; per the spec the feed
    is an abstract source of delivered messages.  The consumer is the
    list of the messages it delivers before it ends; creating and closing
    it does nothing else. *)
Record kafka_message : Type := delivery {
  offset : Z;
  value : string
}.

(** [for message in consumer: ...] *)
Fixpoint consume (consumer : list kafka_message) (window_size : Z) : M unit :=
  match consumer with
  | [] => ret tt
  | message :: rest =>
      let message_str := value message in
      logger DEBUG (Received_message (offset message) message_str) ;;
      process_message message_str window_size ;;
      consume rest window_size
  end.

(** The loop runs in a [try] whose clauses take [KeyboardInterrupt], a
    signal from outside that no statement of the program raises, and
    [Exception]; the [finally] clause closes the consumer and logs. *)
Definition main (feed : list kafka_message) : M unit :=
  logger INFO START_consumer ;;
  topic <- get_kafka_topic ;;
  group_id <- get_kafka_consumer_group_id ;;
  window_size <- get_rolling_window_size ;;
  logger INFO (Consumer_topic_group topic group_id) ;;
  logger INFO (Rolling_window_size window_size) ;;
  d <- lift (deque_new window_size) ;;
  set_rolling_window d ;;
  logger INFO (Polling_messages topic) ;;
  try_except (consume feed window_size)
    [ (isinstance_Exception,
       fun e => logger ERROR (Error_while_consuming e)) ] ;;
  logger INFO (Consumer_closed topic).

End Program.

(** ** A small runtime for running the program on concrete messages

    The theorems below hold for every [Builtins].  To run the program on
    concrete texts, [lite] reads the part of the notations that needs no
    more than a division: numbers written [sign digits] or
    [sign digits . digits] with at most 22 decimals and a numerator below
    [2^53], and flat JSON documents (a scalar, or an object whose values
    are scalars).  On these texts it answers as CPython does.  It has no
    exponents, no string escapes, no arrays or nested objects, no [NaN]
    or [Infinity], no blanks or underscores inside a number: such texts
    it refuses, which CPython does not always do, and no run below uses
    one. *)
Module Lite.

Definition quote : ascii := "034"%char.

Definition is_digit (c : ascii) : bool :=
  let n := nat_of_ascii c in (48 <=? n)%nat && (n <=? 57)%nat.

Definition digit_value (c : ascii) : Z := Z.of_nat (nat_of_ascii c) - 48.

Definition is_blank (c : ascii) : bool :=
  let n := nat_of_ascii c in
  (n =? 32)%nat || (n =? 9)%nat || (n =? 10)%nat || (n =? 13)%nat.

(** The longest run of digits in front of [s], and what follows it. *)
Fixpoint span_digits (s : list ascii) : list ascii * list ascii :=
  match s with
  | c :: rest =>
      if is_digit c
      then let (ds, tail) := span_digits rest in (c :: ds, tail)
      else ([], s)
  | [] => ([], [])
  end.

Definition decimal (ds : list ascii) : Z :=
  fold_left (fun acc c => 10 * acc + digit_value c) ds 0.

Fixpoint skip_blanks (s : list ascii) : list ascii :=
  match s with
  | c :: rest => if is_blank c then skip_blanks rest else s
  | [] => []
  end.

(** The binary64 nearest to [m / 10^k], for [m] and [10^k] that are
    binary64 numbers themselves. *)
Definition decimal_float (negative : bool) (m : Z) (k : nat) : option float :=
  if (m =? 0)%Z then Some (S754_zero negative)
  else if (m <? 2 ^ 53)%Z && (k <=? 22)%nat
  then Some (SFdiv prec emax (Z2float (if negative then - m else m))
                             (Z2float (10 ^ Z.of_nat k)))
  else None.

Definition split_sign (s : list ascii) : bool * list ascii :=
  match s with
  | "-"%char :: rest => (true, rest)
  | "+"%char :: rest => (false, rest)
  | _ => (false, s)
  end.

(** [int(text)] *)
Definition int_of_str (text : string) : result Z :=
  let (negative, s) := split_sign (list_ascii_of_string text) in
  match span_digits s with
  | ((_ :: _) as ds, []) => inr (if negative then - decimal ds else decimal ds)
  | _ => inl ValueError
  end.

(** [float(text)] *)
Definition float_of_str (text : string) : result float :=
  let (negative, s) := split_sign (list_ascii_of_string text) in
  match span_digits s with
  | ((_ :: _) as ds, []) =>
      match decimal_float negative (decimal ds) 0 with
      | Some f => inr f
      | None => inl ValueError
      end
  | ((_ :: _) as ds, "."%char :: s') =>
      match span_digits s' with
      | (fs, []) =>
          match decimal_float negative (decimal (ds ++ fs)) (List.length fs) with
          | Some f => inr f
          | None => inl ValueError
          end
      | _ => inl ValueError
      end
  | _ => inl ValueError
  end.

(** A JSON number: [-]digits for an [int], [-]digits.digits for a
    [float]; no leading zero before further digits. *)
Definition scan_number (s : list ascii) : option (pyval * list ascii) :=
  let (negative, s1) :=
    match s with
    | "-"%char :: rest => (true, rest)
    | _ => (false, s)
    end in
  match span_digits s1 with
  | ([], _) => None
  | ("0"%char :: _ :: _, _) => None
  | (ds, "."%char :: s2) =>
      match span_digits s2 with
      | ([], _) => None
      | (_, "e"%char :: _) | (_, "E"%char :: _) => None
      | (fs, s3) =>
          match decimal_float negative (decimal (ds ++ fs)) (List.length fs) with
          | Some f => Some (PFloat f, s3)
          | None => None
          end
      end
  | (_, "e"%char :: _) | (_, "E"%char :: _) => None
  | (ds, s2) => Some (PInt (if negative then - decimal ds else decimal ds), s2)
  end.

(** The characters of a JSON string up to its closing quote. *)
Fixpoint scan_string (s : list ascii) : option (string * list ascii) :=
  match s with
  | [] => None
  | c :: rest =>
      if Ascii.eqb c quote then Some (EmptyString, rest)
      else if Ascii.eqb c "\"%char || (nat_of_ascii c <? 32)%nat then None
      else match scan_string rest with
           | Some (str, tail) => Some (String c str, tail)
           | None => None
           end
  end.

Definition scan_scalar (s : list ascii) : option (pyval * list ascii) :=
  match s with
  | "n"%char :: "u"%char :: "l"%char :: "l"%char :: rest => Some (PNone, rest)
  | "t"%char :: "r"%char :: "u"%char :: "e"%char :: rest => Some (PBool true, rest)
  | "f"%char :: "a"%char :: "l"%char :: "s"%char :: "e"%char :: rest =>
      Some (PBool false, rest)
  | c :: rest =>
      if Ascii.eqb c quote
      then match scan_string rest with
           | Some (str, tail) => Some (PStr str, tail)
           | None => None
           end
      else scan_number s
  | [] => None
  end.

(** [d[key] = value]: a key already present keeps its place. *)
Fixpoint dict_set (kv : list (string * pyval)) (key : string) (value : pyval)
    : list (string * pyval) :=
  match kv with
  | [] => [(key, value)]
  | (k, v) :: rest =>
      if String.eqb key k then (k, value) :: rest
      else (k, v) :: dict_set rest key value
  end.

(** The members of an object after its opening brace; [s] starts at a
    key.  Every round consumes input, so its length is fuel enough. *)
Fixpoint scan_members (fuel : nat) (acc : list (string * pyval)) (s : list ascii)
    : option (pyval * list ascii) :=
  match fuel with
  | O => None
  | S fuel' =>
      match s with
      | c :: s1 =>
          if Ascii.eqb c quote then
            match scan_string s1 with
            | Some (key, s2) =>
                match skip_blanks s2 with
                | ":"%char :: s3 =>
                    match scan_scalar (skip_blanks s3) with
                    | Some (value, s4) =>
                        let acc' := dict_set acc key value in
                        match skip_blanks s4 with
                        | "}"%char :: s5 => Some (PDict acc', s5)
                        | ","%char :: s5 => scan_members fuel' acc' (skip_blanks s5)
                        | _ => None
                        end
                    | None => None
                    end
                | _ => None
                end
            | None => None
            end
          else None
      | [] => None
      end
  end.

Definition scan_value (s : list ascii) : option (pyval * list ascii) :=
  match s with
  | "{"%char :: s1 =>
      match skip_blanks s1 with
      | "}"%char :: s2 => Some (PDict [], s2)
      | s2 => scan_members (List.length s2) [] s2
      end
  | _ => scan_scalar s
  end.

(** [json.loads(text)] *)
Definition json_loads (text : string) : result pyval :=
  match scan_value (skip_blanks (list_ascii_of_string text)) with
  | Some (v, rest) =>
      match skip_blanks rest with
      | [] => inr v
      | _ => inl JSONDecodeError
      end
  | None => inl JSONDecodeError
  end.

End Lite.

Definition lite : Builtins :=
  {| json_loads := Lite.json_loads;
     float_of_str := Lite.float_of_str;
     int_of_str := Lite.int_of_str |}.

(** A message as the producer writes it:
    [{"timestamp": "<timestamp>", "heart_rate": <heart_rate>}]. *)
Definition quoted (s : string) : string :=
  String Lite.quote (s ++ String Lite.quote EmptyString)%string.

Definition reading (timestamp heart_rate : string) : string :=
  ("{" ++ quoted "timestamp" ++ ": " ++ quoted timestamp ++ ", "
       ++ quoted "heart_rate" ++ ": " ++ heart_rate ++ "}")%string.

(** ** Observations on a run *)

(** The world after some more records were logged. *)
Definition logged (w : world) (records : list log_record) : world :=
  mkworld (os_environ w) (rolling_window w) (sink w ++ records).

(** The world after [x] was appended to the rolling window. *)
Definition pushed (w : world) (x : pyval) : world :=
  mkworld (os_environ w) (deque_append (rolling_window w) x) (sink w).

(** A message is accepted when it decodes to an object whose [heart_rate]
    is a number and whose [timestamp] is there. *)
Definition accepted {B : Builtins} (message : string) (heart_rate : pyval) : Prop :=
  exists data timestamp,
    json_loads message = inr data /\
    py_get data "heart_rate" = inr heart_rate /\
    py_get data "timestamp" = inr timestamp /\
    is_None heart_rate = false /\
    is_None timestamp = false /\
    is_number heart_rate = true.

(** The classification an alert call makes, read off what it logs. *)
Inductive alert_level : Type := NONE | HIGH | LOW.

Definition emitted (lvl : alert_level) (heart_rate : pyval) : list log_record :=
  match lvl with
  | NONE => []
  | HIGH => [(WARNING, ALERT_high heart_rate)]
  | LOW => [(WARNING, ALERT_low heart_rate)]
  end.

(** The level an alert call settles on, from its two comparisons. *)
Definition level_for (above below : bool) : alert_level :=
  if above then HIGH else if below then LOW else NONE.

(** The records that tell a decision: alerts, stall evaluations and stall
    reports, and per-message errors. *)
Definition is_decision (r : log_record) : bool :=
  match snd r with
  | Waiting_for _ _ | Heart_rate_range _ _ | ALERT_high _ | ALERT_low _
  | STALL_DETECTED _ _ _ | Invalid_message_format _
  | JSON_decoding_error _ _ | Error_processing_message _ _ => true
  | _ => false
  end.

Definition decisions (records : list log_record) : list log_record :=
  filter is_decision records.

(** The records that tell a tunable was resolved: a getter writes one
    each time it is called ([main] repeats the one for the window
    size). *)
Definition is_resolution (r : log_record) : bool :=
  match r with
  | (INFO, Max_stall_variation _) | (INFO, High_threshold _)
  | (INFO, Low_threshold _) | (INFO, Rolling_window_size _) => true
  | _ => false
  end.

Definition resolutions (records : list log_record) : list log_record :=
  filter is_resolution records.

(** [n] pushes in a row. *)
Definition pushes (d : deque) (values : list pyval) : deque :=
  fold_left deque_append values d.

(** A deque of capacity [n]: it never holds more. *)
Definition bounded_by (n : nat) (d : deque) : Prop :=
  maxlen d = Some n /\ (List.length (items d) <= n)%nat.


Definition is_float (v : pyval) : bool :=
  match v with PFloat _ => true | _ => false end.

Definition all_numbers (d : deque) : Prop :=
  Forall (fun v => is_number v = true) (items d).

(** ** Concrete worlds and feeds *)

(** No variable set: every getter answers with its default. *)
Definition world0 : world := mkworld [] (mkdeque [] None) [].

(** The high and low thresholds swapped by misconfiguration. *)
Definition world_swapped : world :=
  mkworld [("HEART_RATE_THRESHOLD_HIGH", "40"); ("HEART_RATE_THRESHOLD_LOW", "120")]
          (mkdeque [] None) [].

(** Only the low threshold set, to the default of the high one. *)
Definition world_low_120 : world :=
  mkworld [("HEART_RATE_THRESHOLD_LOW", "120")] (mkdeque [] None) [].

Definition F (z : Z) : pyval := PFloat (Z2float z).

Definition t1 : string := "2025-01-11T18:15:00Z".
Definition t2 : string := "2025-01-11T18:16:00Z".
Definition t3 : string := "2025-01-11T18:17:00Z".
Definition t4 : string := "2025-01-11T18:18:00Z".
Definition t5 : string := "2025-01-11T18:19:00Z".
Definition t6 : string := "2025-01-11T18:20:00Z".

(** The messages a feed delivers, numbered from an offset on. *)
Fixpoint delivered (from : Z) (values : list string) : list kafka_message :=
  match values with
  | [] => []
  | v :: rest => delivery from v :: delivered (from + 1) rest
  end.

Definition calm_readings : list string :=
  [ reading t1 "70.0"; reading t2 "71.0"; reading t3 "72.0";
    reading t4 "70.0"; reading t5 "71.0" ].

Definition spike : string := reading t6 "130.0".

Definition calm_feed : list kafka_message := delivered 0 calm_readings.

Definition spiked_feed : list kafka_message :=
  delivered 0 (calm_readings ++ [spike]).

(** A warm-up window and a full window that is not stalled. *)
Definition short_window : deque := mkdeque [F 70] (Some 5%nat).

Definition spiked_window : deque :=
  mkdeque [F 71; F 72; F 70; F 71; F 130] (Some 5%nat).

(** An integer literal of 401 digits, [10^400]: more than a binary64
    holds. *)
Definition huge_literal : string :=
  String "1" (string_of_list_ascii (repeat "0"%char 400)).

Definition huge_reading : string := reading t5 huge_literal.

(** The three documented failure inputs, and two more. *)
Definition not_json : string := "heart rate 72".

Definition no_heart_rate : string :=
  ("{" ++ quoted "timestamp" ++ ": " ++ quoted t1 ++ "}")%string.

Definition no_timestamp : string :=
  ("{" ++ quoted "heart_rate" ++ ": 72.0}")%string.

Definition not_an_object : string := "42".

Definition not_a_number : string := reading t1 (quoted "fast").

(** A world whose window is warming up, one whose window lacks one
    reading, and one with the high threshold raised to 200. *)
Definition world_warm : world := mkworld [] short_window [].

Definition world_four : world :=
  mkworld [] (mkdeque [F 70; F 70; F 70; F 70] (Some 5%nat)) [].

Definition world_high_200 : world :=
  mkworld [("HEART_RATE_THRESHOLD_HIGH", "200")] short_window [].

(** A world whose window lacks one reading of a calm run. *)
Definition world_calm4 : world :=
  mkworld [] (mkdeque [F 70; F 71; F 72; F 70] (Some 5%nat)) [].



Definition overflow_feed : list kafka_message :=
  delivered 0 [ reading t1 "70.0"; reading t2 "70.0"; reading t3 "70.0";
                reading t4 "70.0"; huge_reading ].

(** ** Observations for whole runs *)

Definition environ : Type := list (string * string).

(** An action that only reads the environment and writes the log: what it
    returns and what it logs are functions of the environment, and every
    record it logs satisfies [p]. *)
Definition reads_and_logs {A : Type} (p : log_record -> bool) (m : M A) : Type :=
  { fg : (environ -> result A) * (environ -> list log_record)
  | forall w,
      m w = (fst fg (os_environ w), logged w (snd fg (os_environ w))) /\
      Forall (fun r => p r = true) (snd fg (os_environ w)) }.

(** The records of the getters and of the two checks. *)
Definition is_check_record (r : log_record) : bool :=
  match snd r with
  | Max_stall_variation _ | Rolling_window_size _
  | High_threshold _ | Low_threshold _
  | Waiting_for _ _ | Heart_rate_range _ _
  | ALERT_high _ | ALERT_low _ => true
  | _ => false
  end.

Definition is_stall_report (r : log_record) : bool :=
  match snd r with
  | STALL_DETECTED _ _ _ => true
  | _ => false
  end.

(** The record the [except] clauses of [process_message] write for an
    exception: the first clause for a [JSONDecodeError], the second for
    any other. *)
Definition handler_record (message : string) (e : exn) : log_record :=
  if isinstance_JSONDecodeError e
  then (ERROR, JSON_decoding_error message e)
  else (ERROR, Error_processing_message message e).

(** What [try: body except ...] of [process_message] makes of the way the
    body ends. *)
Definition caught (message : string) (out : result unit * world)
    : result unit * world :=
  match out with
  | (inl e, w') => (inr tt, logged w' [handler_record message e])
  | (inr tt, w') => (inr tt, w')
  end.

(** What follows the stall check of a message: the report of a stall,
    nothing, or the record of the exception the check raised. *)
Definition verdict_records (message : string) (timestamp heart_rate : pyval)
    (window_size : Z) (verdict : result bool) : list log_record :=
  match verdict with
  | inl e => [handler_record message e]
  | inr true => [(INFO, STALL_DETECTED timestamp heart_rate window_size)]
  | inr false => []
  end.

(** The records [process_message] can write. *)
Definition is_message_record (r : log_record) : bool :=
  is_check_record r ||
  match snd r with
  | Raw_message _ | Processed_JSON_message _ | Invalid_message_format _
  | STALL_DETECTED _ _ _ | JSON_decoding_error _ _
  | Error_processing_message _ _ => true
  | _ => false
  end.

(** The reading a message carries, when it decodes to an object with a
    [timestamp] and a number for [heart_rate]. *)
Definition heart_rate_of {B : Builtins} (message : string) : option pyval :=
  match json_loads message with
  | inr data =>
      match py_get data "heart_rate", py_get data "timestamp" with
      | inr heart_rate, inr timestamp =>
          if is_None heart_rate || is_None timestamp then None
          else if is_number heart_rate then Some heart_rate
          else None
      | _, _ => None
      end
  | inl _ => None
  end.

(** What a message hands to the checks: the decoded object with its
    [heart_rate] and [timestamp], when the message decodes, answers both
    [get]s, and neither field is [None]; a message without is dropped
    before the checks. *)
Definition validated {B : Builtins} (message : string)
    : option (pyval * pyval * pyval) :=
  match json_loads message with
  | inr data =>
      match py_get data "heart_rate", py_get data "timestamp" with
      | inr heart_rate, inr timestamp =>
          if is_None heart_rate || is_None timestamp then None
          else Some (data, heart_rate, timestamp)
      | _, _ => None
      end
  | inl _ => None
  end.

Definition readings_of {B : Builtins} (feed : list kafka_message) : list pyval :=
  flat_map (fun m => match heart_rate_of (value m) with
                     | Some heart_rate => [heart_rate]
                     | None => []
                     end) feed.

(** The deliveries a log tells of. *)
Definition received_of (records : list log_record) : list kafka_message :=
  flat_map (fun r => match snd r with
                     | Received_message o message_str => [delivery o message_str]
                     | _ => []
                     end) records.

(** The records of [main] before the loop. *)
Definition startup_records (topic group_id : string) (n : Z) : list log_record :=
  [(INFO, START_consumer); (INFO, Kafka_topic topic);
   (INFO, Kafka_consumer_group_id group_id); (INFO, Rolling_window_size n);
   (INFO, Consumer_topic_group topic group_id); (INFO, Rolling_window_size n);
   (INFO, Polling_messages topic)].

(** Environments with a window size that is no number, that is
    negative, that is [2^63], that is zero (with the deque [main] makes
    for it), and with a high threshold that is no number. *)
Definition world_size_text : world :=
  mkworld [("HEART_ROLLING_WINDOW_SIZE", "five")] (mkdeque [] None) [].

Definition world_size_negative : world :=
  mkworld [("HEART_ROLLING_WINDOW_SIZE", "-1")] (mkdeque [] None) [].

Definition world_size_huge : world :=
  mkworld [("HEART_ROLLING_WINDOW_SIZE", "9223372036854775808")]
          (mkdeque [] None) [].

Definition world_size_zero : world :=
  mkworld [("HEART_ROLLING_WINDOW_SIZE", "0")] (mkdeque [] (Some 0%nat)) [].

Definition world_bad_high : world :=
  mkworld [("HEART_RATE_THRESHOLD_HIGH", "high")] short_window [].

(** A feed with two messages that are dropped among three readings. *)
Definition mixed_feed : list kafka_message :=
  delivered 7 [ reading t1 "70.0"; not_json; reading t2 "71.0";
                no_timestamp; reading t3 "72.0" ].

(** * Properties *)

(** ** The small runtime on the texts of the runs below *)

Example lite_decodes_a_reading :
  json_loads (Builtins := lite) (reading t1 "72.0")
  = inr (PDict [("timestamp", PStr t1); ("heart_rate", F 72)]).
Proof. vm_compute. reflexivity. Qed.

Example lite_decodes_an_integer :
  json_loads (Builtins := lite) huge_reading
  = inr (PDict [("timestamp", PStr t5); ("heart_rate", PInt (10 ^ 400))]).
Proof. vm_compute. reflexivity. Qed.

Example lite_refuses_prose :
  json_loads (Builtins := lite) not_json = inl JSONDecodeError.
Proof. reflexivity. Qed.

Example lite_reads_a_threshold :
  float_of_str (Builtins := lite) "200" = inr (Z2float 200) /\
  float_of_str (Builtins := lite) "bpm" = inl ValueError /\
  int_of_str (Builtins := lite) "5" = inr 5.
Proof. vm_compute. repeat split. Qed.

(** [float(10 ** 400)] overflows, comparing [10 ** 400] with a float does
    not. *)
Example huge_integer_and_floats :
  float_of_int (10 ^ 400) = inl OverflowError /\
  py_richcmp OpGt (PInt (10 ^ 400)) (F 120) = inr true /\
  py_sub (PInt (10 ^ 400)) (F 70) = inl OverflowError.
Proof. vm_compute. repeat split. Qed.

(** ** The deque *)

Section DequeFacts.

Lemma tl_app_nonempty (A : Type) (xs ys : list A) :
  xs <> [] -> tl (xs ++ ys) = tl xs ++ ys.
Proof. destruct xs as [|x xs]; [congruence | reflexivity]. Qed.

Lemma tl_length (A : Type) (xs : list A) :
  List.length (tl xs) = Nat.pred (List.length xs).
Proof. destruct xs; reflexivity. Qed.

(** One [append] on a deque within its bound: below the bound the item
    is added, at the bound the oldest item goes. *)
Lemma deque_append_items (n : nat) (d : deque) (v : pyval) :
  bounded_by n d ->
  items (deque_append d v) =
    (if (List.length (items d) <? n)%nat then items d ++ [v]
     else tl (items d ++ [v])) /\
  maxlen (deque_append d v) = Some n.
Proof.
  intros [Hm Hl]. unfold deque_append. rewrite Hm.
  rewrite length_app. simpl List.length.
  destruct (Nat.ltb_spec (List.length (items d)) n) as [Hlt | Hge].
  - destruct (Nat.ltb_spec n (List.length (items d) + 1)) as [H | H];
      [lia | simpl; auto].
  - destruct (Nat.ltb_spec n (List.length (items d) + 1)) as [H | H];
      [simpl; auto | lia].
Qed.

Lemma deque_append_bounded (n : nat) (d : deque) (v : pyval) :
  bounded_by n d -> bounded_by n (deque_append d v).
Proof.
  intros Hb. destruct (deque_append_items n d v Hb) as [Hi Hm].
  split; [exact Hm |]. rewrite Hi. destruct Hb as [_ Hl].
  destruct (Nat.ltb_spec (List.length (items d)) n) as [Hlt | Hge].
  - rewrite length_app. simpl. lia.
  - rewrite tl_length, length_app. simpl. lia.
Qed.

Lemma deque_append_length (n : nat) (d : deque) (v : pyval) :
  bounded_by n d ->
  List.length (items (deque_append d v)) = Nat.min n (S (List.length (items d))).
Proof.
  intros Hb. destruct (deque_append_items n d v Hb) as [Hi _].
  rewrite Hi. destruct Hb as [_ Hl].
  destruct (Nat.ltb_spec (List.length (items d)) n) as [Hlt | Hge].
  - rewrite length_app. simpl. lia.
  - rewrite tl_length, length_app. simpl. lia.
Qed.

Lemma pushes_bounded (n : nat) (vs : list pyval) :
  forall d, bounded_by n d -> bounded_by n (pushes d vs).
Proof.
  induction vs as [|v vs IH]; intros d Hb; simpl; [exact Hb |].
  apply IH, deque_append_bounded, Hb.
Qed.

Lemma pushes_length (n : nat) (vs : list pyval) :
  forall d, bounded_by n d ->
  List.length (items (pushes d vs)) =
    Nat.min n (List.length (items d) + List.length vs).
Proof.
  induction vs as [|v vs IH]; intros d Hb; simpl.
  - destruct Hb as [_ Hl]. lia.
  - rewrite IH by (apply deque_append_bounded, Hb).
    rewrite (deque_append_length n d v Hb). lia.
Qed.

(** What a deque holds after any pushes: the last [n] of everything it
    was given, in arrival order. *)
Lemma pushes_items (n : nat) (vs : list pyval) :
  forall d, bounded_by n d ->
  items (pushes d vs) =
    skipn (List.length (items d) + List.length vs - n) (items d ++ vs).
Proof.
  induction vs as [|v vs IH]; intros d Hb; simpl.
  - destruct Hb as [_ Hl]. rewrite app_nil_r.
    replace (List.length (items d) + 0 - n)%nat with 0%nat by lia.
    reflexivity.
  - rewrite IH by (apply deque_append_bounded, Hb).
    destruct (deque_append_items n d v Hb) as [Hi _].
    rewrite Hi. destruct Hb as [_ Hl].
    destruct (Nat.ltb_spec (List.length (items d)) n) as [Hlt | Hge].
    + rewrite length_app, <- app_assoc. simpl.
      f_equal. lia.
    + assert (Hn : List.length (items d) = n) by lia.
      rewrite tl_length, length_app. simpl List.length.
      replace (Nat.pred (List.length (items d) + 1) + List.length vs - n)%nat
        with (List.length vs) by lia.
      replace (List.length (items d) + S (List.length vs) - n)%nat
        with (S (List.length vs)) by lia.
      rewrite <- tl_app_nonempty by (destruct (items d); discriminate).
      rewrite <- app_assoc. simpl.
      destruct (items d ++ v :: vs) as [|x xs] eqn:E.
      * destruct (items d); discriminate.
      * reflexivity.
Qed.

Lemma empty_bounded (n : nat) : bounded_by n (mkdeque [] (Some n)).
Proof. split; simpl; [reflexivity | lia]. Qed.

(** The sizes [deque(maxlen=n)] takes, and those it refuses. *)
Lemma deque_new_cases (n : Z) :
  deque_new n =
    if (n <? - 2 ^ 63) || (2 ^ 63 <=? n) then inl OverflowError
    else if n <? 0 then inl ValueError
    else inr (mkdeque [] (Some (Z.to_nat n))).
Proof. reflexivity. Qed.

Lemma deque_new_ok (n : Z) :
  0 <= n < 2 ^ 63 ->
  deque_new n = inr (mkdeque [] (Some (Z.to_nat n))).
Proof.
  intros [Hlo Hhi]. rewrite deque_new_cases.
  destruct (Z.ltb_spec n (- 2 ^ 63)) as [H | _]; [lia |].
  destruct (Z.leb_spec (2 ^ 63) n) as [H | _]; [lia |].
  destruct (Z.ltb_spec n 0) as [H | _]; [lia | reflexivity].
Qed.

Lemma deque_new_nat (n : nat) :
  Z.of_nat n < 2 ^ 63 ->
  deque_new (Z.of_nat n) = inr (mkdeque [] (Some n)).
Proof.
  intros H. rewrite deque_new_ok by lia. rewrite Nat2Z.id. reflexivity.
Qed.

End DequeFacts.

(** C7 (FIFO eviction).  Pushing [n + 1] values into the empty deque of
    capacity [n] leaves exactly the last [n] of them, in arrival order. *)
Theorem fifo_eviction (n : nat) (vs : list pyval) :
  List.length vs = S n ->
  items (pushes (mkdeque [] (Some n)) vs) = tl vs.
Proof.
  intros Hlen.
  rewrite (pushes_items n vs _ (empty_bounded n)). simpl.
  rewrite Hlen. replace (S n - n)%nat with 1%nat by lia.
  destruct vs; reflexivity.
Qed.

(** Capacity 3, pushes 70, 71, 72, 73: the deque holds 71, 72, 73. *)
Lemma fifo_eviction_witness :
  items (pushes (mkdeque [] (Some 3%nat)) [F 70; F 71; F 72; F 73])
  = [F 71; F 72; F 73].
Proof. apply (fifo_eviction 3 [F 70; F 71; F 72; F 73]). reflexivity. Defined.

(** ** Order of numbers *)

Section NumberFacts.


(** [x < y <= z] excludes [z < x]. *)
Lemma xltb_xleb_excludes (x y z : xnum) :
  xltb x y = true -> xleb y z = true -> xltb z x = false.
Proof.
  unfold xltb, xleb.
  destruct x as [| |p|], y as [| |q|], z as [| |r|]; simpl;
    try discriminate; try reflexivity.
  destruct (Qcompare_spec p q) as [Hpq|Hpq|Hpq]; try discriminate.
  intros _.
  destruct (Qcompare_spec q r) as [Hqr|Hqr|Hqr]; try discriminate; intros _.
  - destruct (Qcompare_spec r p) as [H|H|H]; try reflexivity.
    rewrite Hqr in Hpq. exfalso. apply (Qlt_irrefl r).
    apply Qlt_trans with p; assumption.
  - destruct (Qcompare_spec r p) as [H|H|H]; try reflexivity.
    exfalso. apply (Qlt_irrefl r).
    apply Qlt_trans with p; [assumption |].
    apply Qlt_trans with q; assumption.
Qed.






Lemma xleb_trans (x y z : xnum) :
  xleb x y = true -> xleb y z = true -> xleb x z = true.
Proof.
  unfold xleb.
  destruct x as [| |p|], y as [| |q|], z as [| |r|]; simpl;
    try discriminate; try reflexivity.
  intros Hpq Hqr.
  assert (H1 : (p <= q)%Q).
  { apply Qle_alt. destruct (p ?= q)%Q; congruence. }
  assert (H2 : (q <= r)%Q).
  { apply Qle_alt. destruct (q ?= r)%Q; congruence. }
  pose proof (proj1 (Qle_alt p r) (Qle_trans _ _ _ H1 H2)) as H.
  destruct (p ?= r)%Q; congruence.
Qed.

End NumberFacts.

(** ** The getters and the two checks *)

Section ProgramFacts.

Context {B : Builtins}.

Lemma logged_logged (w : world) (r1 r2 : list log_record) :
  logged (logged w r1) r2 = logged w (r1 ++ r2).
Proof. unfold logged. simpl. rewrite app_assoc. reflexivity. Qed.

Lemma logged_nil (w : world) : logged w [] = w.
Proof. unfold logged. rewrite app_nil_r. destruct w; reflexivity. Qed.

Lemma bind_ok (A C : Type) (m : M A) (k : A -> M C) (w w' : world) (a : A) :
  m w = (inr a, w') -> bind m k w = k a w'.
Proof. intros H. unfold bind. rewrite H. reflexivity. Qed.

Lemma bind_raises (A C : Type) (m : M A) (k : A -> M C) (w w' : world) (e : exn) :
  m w = (inl e, w') -> bind m k w = (inl e, w').
Proof. intros H. unfold bind. rewrite H. reflexivity. Qed.

Lemma bind_lift (A C : Type) (r : result A) (k : A -> M C) (w : world) :
  bind (lift r) k w =
    match r with
    | inl e => (inl e, w)
    | inr a => k a w
    end.
Proof. unfold bind, lift. destruct r; reflexivity. Qed.

Lemma bind_logger (C : Type) (lv : level) (t : template) (k : unit -> M C)
    (w : world) :
  bind (logger lv t) k w = k tt (logged w [(lv, t)]).
Proof. reflexivity. Qed.

Lemma logger_run (lv : level) (t : template) (w : world) :
  logger lv t w = (inr tt, logged w [(lv, t)]).
Proof. reflexivity. Qed.

Ltac run_getter :=
  unfold bind, os_getenv, lift, logger, ret, logged; simpl;
  repeat match goal with
         | |- context [py_float ?x] => destruct (py_float x); simpl
         | |- context [py_int ?x] => destruct (py_int x); simpl
         end;
  intros; try congruence; try reflexivity.

(** A getter that resolves its tunable logs the value and returns it. *)
Lemma get_rolling_window_size_ok (w : world) (n : Z) :
  fst (get_rolling_window_size w) = inr n ->
  get_rolling_window_size w = (inr n, logged w [(INFO, Rolling_window_size n)]).
Proof. unfold get_rolling_window_size. run_getter. Qed.

Lemma get_stall_threshold_ok (w : world) (t : float) :
  fst (get_stall_threshold w) = inr t ->
  get_stall_threshold w = (inr t, logged w [(INFO, Max_stall_variation t)]).
Proof. unfold get_stall_threshold. run_getter. Qed.

Lemma get_heart_rate_threshold_high_ok (w : world) (t : float) :
  fst (get_heart_rate_threshold_high w) = inr t ->
  get_heart_rate_threshold_high w = (inr t, logged w [(INFO, High_threshold t)]).
Proof. unfold get_heart_rate_threshold_high. run_getter. Qed.

Lemma get_heart_rate_threshold_low_ok (w : world) (t : float) :
  fst (get_heart_rate_threshold_low w) = inr t ->
  get_heart_rate_threshold_low w = (inr t, logged w [(INFO, Low_threshold t)]).
Proof. unfold get_heart_rate_threshold_low. run_getter. Qed.

(** A getter that fails leaves the world as it was. *)
Lemma get_rolling_window_size_raises (w : world) (e : exn) :
  fst (get_rolling_window_size w) = inl e ->
  get_rolling_window_size w = (inl e, w).
Proof. unfold get_rolling_window_size. run_getter. Qed.

Lemma get_stall_threshold_raises (w : world) (e : exn) :
  fst (get_stall_threshold w) = inl e ->
  get_stall_threshold w = (inl e, w).
Proof. unfold get_stall_threshold. run_getter. Qed.

Lemma get_heart_rate_threshold_high_raises (w : world) (e : exn) :
  fst (get_heart_rate_threshold_high w) = inl e ->
  get_heart_rate_threshold_high w = (inl e, w).
Proof. unfold get_heart_rate_threshold_high. run_getter. Qed.

Lemma get_heart_rate_threshold_low_raises (w : world) (e : exn) :
  fst (get_heart_rate_threshold_low w) = inl e ->
  get_heart_rate_threshold_low w = (inl e, w).
Proof. unfold get_heart_rate_threshold_low. run_getter. Qed.

(** What a getter resolves depends on the environment alone. *)
Lemma get_rolling_window_size_env (w w' : world) :
  os_environ w' = os_environ w ->
  fst (get_rolling_window_size w') = fst (get_rolling_window_size w).
Proof.
  intros E. unfold get_rolling_window_size, bind, os_getenv, lift. simpl.
  rewrite E. destruct (py_int _); reflexivity.
Qed.

Lemma get_stall_threshold_env (w w' : world) :
  os_environ w' = os_environ w ->
  fst (get_stall_threshold w') = fst (get_stall_threshold w).
Proof.
  intros E. unfold get_stall_threshold, bind, os_getenv, lift. simpl.
  rewrite E. destruct (py_float _); reflexivity.
Qed.

Lemma get_heart_rate_threshold_high_env (w w' : world) :
  os_environ w' = os_environ w ->
  fst (get_heart_rate_threshold_high w') = fst (get_heart_rate_threshold_high w).
Proof.
  intros E. unfold get_heart_rate_threshold_high, bind, os_getenv, lift. simpl.
  rewrite E. destruct (py_float _); reflexivity.
Qed.

Lemma get_heart_rate_threshold_low_env (w w' : world) :
  os_environ w' = os_environ w ->
  fst (get_heart_rate_threshold_low w') = fst (get_heart_rate_threshold_low w).
Proof.
  intros E. unfold get_heart_rate_threshold_low, bind, os_getenv, lift. simpl.
  rewrite E. destruct (py_float _); reflexivity.
Qed.

(** Comparing with a float succeeds on numbers and on nothing else. *)
Lemma richcmp_float (op : cmpop) (v : pyval) (t : float) :
  py_richcmp op v (PFloat t) =
    match num_value v with
    | Some x => inr (xnum_cmp op x (xnum_of_float t))
    | None => inl TypeError
    end.
Proof. destruct v; reflexivity. Qed.

Lemma num_value_is_number (v : pyval) :
  is_number v = true <-> exists x, num_value v = Some x.
Proof.
  destruct v; simpl; split; intros H;
    try discriminate; try reflexivity; eauto;
    destruct H as [x H]; discriminate.
Qed.

Lemma richcmp_float_number (op : cmpop) (v : pyval) (t : float) (c : bool) :
  py_richcmp op v (PFloat t) = inr c -> is_number v = true.
Proof.
  rewrite richcmp_float. destruct (num_value v) eqn:E; [| discriminate].
  intros _. apply num_value_is_number. eauto.
Qed.

(** The alert call on a number, with both thresholds resolved: it logs
    the two resolutions, then the alert of its level, and returns. *)
Lemma alert_run (w : world) (v : pyval) (x : xnum) (high low : float) :
  num_value v = Some x ->
  fst (get_heart_rate_threshold_high w) = inr high ->
  fst (get_heart_rate_threshold_low w) = inr low ->
  alert_on_heart_rate_anomaly v w =
    (inr tt,
     logged w ([(INFO, High_threshold high); (INFO, Low_threshold low)]
               ++ emitted (level_for (xltb (xnum_of_float high) x)
                                     (xltb x (xnum_of_float low))) v)).
Proof.
  intros Hv Hh Hl. unfold alert_on_heart_rate_anomaly.
  rewrite (bind_ok _ _ _ _ _ _ _ (get_heart_rate_threshold_high_ok w high Hh)).
  assert (Hl' : fst (get_heart_rate_threshold_low
                       (logged w [(INFO, High_threshold high)])) = inr low).
  { rewrite <- Hl. apply get_heart_rate_threshold_low_env. reflexivity. }
  rewrite (bind_ok _ _ _ _ _ _ _ (get_heart_rate_threshold_low_ok _ low Hl')).
  rewrite logged_logged, bind_lift, richcmp_float, Hv. cbn [xnum_cmp].
  destruct (xltb (xnum_of_float high) x); simpl level_for; cbv beta iota.
  - rewrite logger_run, logged_logged. reflexivity.
  - rewrite bind_lift, richcmp_float, Hv. cbn [xnum_cmp].
    destruct (xltb x (xnum_of_float low)); simpl emitted; cbv beta iota.
    + rewrite logger_run, logged_logged. reflexivity.
    + rewrite app_nil_r. reflexivity.
Qed.

(** Whatever its argument, the alert call only logs; when it returns,
    the argument was a number. *)
Lemma alert_frame (w : world) (v : pyval) :
  exists records,
    snd (alert_on_heart_rate_anomaly v w) = logged w records /\
    (fst (alert_on_heart_rate_anomaly v w) = inr tt -> is_number v = true).
Proof.
  unfold alert_on_heart_rate_anomaly.
  destruct (fst (get_heart_rate_threshold_high w)) as [e|high] eqn:Hh.
  { rewrite (bind_raises _ _ _ _ _ _ _ (get_heart_rate_threshold_high_raises w e Hh)).
    exists []. rewrite logged_nil. simpl. split; [reflexivity | discriminate]. }
  rewrite (bind_ok _ _ _ _ _ _ _ (get_heart_rate_threshold_high_ok w high Hh)).
  destruct (fst (get_heart_rate_threshold_low
                   (logged w [(INFO, High_threshold high)]))) as [e|low] eqn:Hl.
  { rewrite (bind_raises _ _ _ _ _ _ _ (get_heart_rate_threshold_low_raises _ e Hl)).
    eexists. simpl. split; [reflexivity | discriminate]. }
  rewrite (bind_ok _ _ _ _ _ _ _ (get_heart_rate_threshold_low_ok _ low Hl)).
  rewrite logged_logged, bind_lift.
  destruct (py_richcmp OpGt v (PFloat high)) as [e|above] eqn:Ha.
  { eexists. simpl. split; [reflexivity | discriminate]. }
  pose proof (richcmp_float_number _ _ _ _ Ha) as Hnum.
  destruct above; cbv beta iota.
  - rewrite logger_run, logged_logged. eexists.
    split; [reflexivity | intros _; exact Hnum].
  - rewrite bind_lift.
    destruct (py_richcmp OpLt v (PFloat low)) as [e|below] eqn:Hb.
    { eexists. simpl. split; [reflexivity | discriminate]. }
    destruct below; cbv beta iota.
    + rewrite logger_run, logged_logged. eexists.
      split; [reflexivity | intros _; exact Hnum].
    + unfold ret. simpl. eexists. split; [reflexivity | intros _; exact Hnum].
Qed.

(** The alert call on a number: its level as the source decides it. *)
Lemma alert_level_cases (w : world) (v : pyval) (high low : float) :
  is_number v = true ->
  fst (get_heart_rate_threshold_high w) = inr high ->
  fst (get_heart_rate_threshold_low w) = inr low ->
  exists above below,
    py_richcmp OpGt v (PFloat high) = inr above /\
    py_richcmp OpLt v (PFloat low) = inr below /\
    alert_on_heart_rate_anomaly v w =
      (inr tt,
       logged w ([(INFO, High_threshold high); (INFO, Low_threshold low)]
                 ++ emitted (level_for above below) v)).
Proof.
  intros Hnum Hh Hl.
  apply num_value_is_number in Hnum. destruct Hnum as [x Hx].
  exists (xltb (xnum_of_float high) x), (xltb x (xnum_of_float low)).
  rewrite !richcmp_float, Hx. cbn [xnum_cmp].
  repeat split. apply alert_run; assumption.
Qed.

End ProgramFacts.

(** C5 (alert classification totality).  For a number [v] and thresholds
    resolved to [high] and [low] with [low <= high], the alert call
    settles on exactly one level of NONE, HIGH, LOW and logs that level's
    warning (none for NONE); the level is HIGH iff [v > high] and LOW iff
    [v < low]. *)
Theorem alert_classification_totality {B : Builtins}
    (w : world) (v : pyval) (high low : float) :
  is_number v = true ->
  fst (get_heart_rate_threshold_high w) = inr high ->
  fst (get_heart_rate_threshold_low w) = inr low ->
  py_richcmp OpLe (PFloat low) (PFloat high) = inr true ->
  exists lvl : alert_level,
    alert_on_heart_rate_anomaly v w =
      (inr tt,
       logged w ([(INFO, High_threshold high); (INFO, Low_threshold low)]
                 ++ emitted lvl v)) /\
    (lvl = HIGH <-> py_richcmp OpGt v (PFloat high) = inr true) /\
    (lvl = LOW <-> py_richcmp OpLt v (PFloat low) = inr true) /\
    (lvl = NONE <-> py_richcmp OpGt v (PFloat high) = inr false /\
                    py_richcmp OpLt v (PFloat low) = inr false).
Proof.
  intros Hnum Hh Hl Hle.
  destruct (alert_level_cases w v high low Hnum Hh Hl)
    as (above & below & Ha & Hb & Hrun).
  exists (level_for above below). split; [exact Hrun |].
  rewrite Ha, Hb.
  assert (Hex : above = true -> below = true -> False).
  { intros -> ->.
    apply num_value_is_number in Hnum. destruct Hnum as [x Hx].
    rewrite richcmp_float, Hx in Ha, Hb. cbn [xnum_cmp] in Ha, Hb.
    simpl in Hle. injection Hle as Hle. injection Ha as Ha. injection Hb as Hb.
    rewrite (xltb_xleb_excludes _ _ _ Hb Hle) in Ha. discriminate. }
  destruct above, below; simpl; repeat split; intros; try congruence;
    try (exfalso; apply Hex; reflexivity);
    try (destruct H; congruence).
Qed.

(** Thresholds 120 and 40, reading 130: the high alert. *)
Lemma alert_classification_totality_witness :
  alert_on_heart_rate_anomaly (B := lite) (F 130) world0 =
    (inr tt,
     logged world0 [(INFO, High_threshold (Z2float 120));
                    (INFO, Low_threshold (Z2float 40));
                    (WARNING, ALERT_high (F 130))]).
Proof.
  destruct (alert_classification_totality (B := lite) world0 (F 130)
              (Z2float 120) (Z2float 40) eq_refl eq_refl eq_refl eq_refl)
    as (lvl & Hrun & Hhigh & _).
  rewrite Hrun. rewrite (proj2 Hhigh eq_refl). reflexivity.
Defined.

(** C6, as stated, fails: with the thresholds swapped (high 40, low 120)
    the value 80 is below the low threshold, yet the call settles on HIGH
    and logs no low alert; with the same low threshold and the high one
    at 120 the same value is classified LOW.  Whether LOW is classified
    depends on how the high comparison came out. *)
Lemma low_check_is_not_independent :
  py_richcmp OpLt (F 80) (PFloat (Z2float 120)) = inr true /\
  alert_on_heart_rate_anomaly (B := lite) (F 80) world_swapped =
    (inr tt,
     logged world_swapped [(INFO, High_threshold (Z2float 40));
                           (INFO, Low_threshold (Z2float 120));
                           (WARNING, ALERT_high (F 80))]) /\
  alert_on_heart_rate_anomaly (B := lite) (F 80) world_low_120 =
    (inr tt,
     logged world_low_120 [(INFO, High_threshold (Z2float 120));
                           (INFO, Low_threshold (Z2float 120));
                           (WARNING, ALERT_low (F 80))]).
Proof. vm_compute. repeat split. Qed.

(** C6, amended.  For every number [v] and every pair of resolved
    thresholds, ordered or not, the level is HIGH iff [v > high], and LOW
    iff [v < low] and not [v > high]: the low comparison is the [elif]
    branch of the high one. *)
Theorem low_is_checked_after_high {B : Builtins}
    (w : world) (v : pyval) (high low : float) :
  is_number v = true ->
  fst (get_heart_rate_threshold_high w) = inr high ->
  fst (get_heart_rate_threshold_low w) = inr low ->
  exists lvl : alert_level,
    alert_on_heart_rate_anomaly v w =
      (inr tt,
       logged w ([(INFO, High_threshold high); (INFO, Low_threshold low)]
                 ++ emitted lvl v)) /\
    (lvl = HIGH <-> py_richcmp OpGt v (PFloat high) = inr true) /\
    (lvl = LOW <-> py_richcmp OpGt v (PFloat high) = inr false /\
                   py_richcmp OpLt v (PFloat low) = inr true).
Proof.
  intros Hnum Hh Hl.
  destruct (alert_level_cases w v high low Hnum Hh Hl)
    as (above & below & Ha & Hb & Hrun).
  exists (level_for above below). split; [exact Hrun |].
  rewrite Ha, Hb.
  destruct above, below; simpl; repeat split; intros; try congruence;
    try (destruct H; congruence).
Qed.

(** Thresholds swapped to high 40 and low 120, reading 80: the high
    alert, and no low one. *)
Lemma low_is_checked_after_high_witness :
  alert_on_heart_rate_anomaly (B := lite) (F 80) world_swapped =
    (inr tt,
     logged world_swapped [(INFO, High_threshold (Z2float 40));
                           (INFO, Low_threshold (Z2float 120));
                           (WARNING, ALERT_high (F 80))]).
Proof.
  destruct (low_is_checked_after_high (B := lite) world_swapped (F 80)
              (Z2float 40) (Z2float 120) eq_refl eq_refl eq_refl)
    as (lvl & Hrun & Hhigh & _).
  rewrite Hrun. rewrite (proj2 Hhigh eq_refl). reflexivity.
Defined.

(** ** Stall detection *)

Section StallFacts.

Context {B : Builtins}.











(** Stall detection only logs. *)
Lemma detect_stall_frame (d : deque) (w : world) :
  exists records, snd (detect_stall d w) = logged w records.
Proof.
  unfold detect_stall.
  destruct (fst (get_rolling_window_size w)) as [e|n] eqn:Hn.
  { rewrite (bind_raises _ _ _ _ _ _ _ (get_rolling_window_size_raises w e Hn)).
    exists []. rewrite logged_nil. reflexivity. }
  rewrite (bind_ok _ _ _ _ _ _ _ (get_rolling_window_size_ok w n Hn)).
  destruct (len d <? n)%Z; cbv beta iota.
  { rewrite bind_logger, logged_logged. eexists. reflexivity. }
  rewrite bind_lift. destruct (py_max (items d)) as [e|hi].
  { eexists. reflexivity. }
  rewrite bind_lift. destruct (py_min (items d)) as [e|lo].
  { eexists. reflexivity. }
  rewrite bind_lift. destruct (py_sub hi lo) as [e|hr_range].
  { eexists. reflexivity. }
  match goal with
  | |- context [bind get_stall_threshold ?k ?w1] =>
      destruct (fst (get_stall_threshold w1)) as [e|t] eqn:Ht;
      [ rewrite (bind_raises _ _ _ _ _ _ _ (get_stall_threshold_raises w1 e Ht))
      | rewrite (bind_ok _ _ _ _ _ _ _ (get_stall_threshold_ok w1 t Ht)) ]
  end.
  { eexists. reflexivity. }
  rewrite logged_logged, bind_lift.
  destruct (py_richcmp OpLe hr_range (PFloat t)) as [e|c].
  { eexists. reflexivity. }
  rewrite bind_lift. destruct (py_format hr_range) as [e|[]].
  { eexists. reflexivity. }
  rewrite bind_logger, logged_logged. eexists. reflexivity.
Qed.


Lemma format_float (v : pyval) :
  is_float v = true -> py_format v = inr tt.
Proof. destruct v; try discriminate. reflexivity. Qed.


End StallFacts.




(** C4, as stated, fails: the result for a window still warming up is not
    a third result.  [detect_stall] returns [False] on the one-reading
    window and the same [False] on a full window whose range, 60, is above
    the threshold 5. *)
Lemma insufficient_data_is_not_distinct :
  (len short_window < 5)%Z /\ len spiked_window = 5 /\
  fst (detect_stall (B := lite) short_window world0) = inr false /\
  fst (detect_stall (B := lite) spiked_window world0) = inr false /\
  fst (detect_stall (B := lite) short_window world0)
    = fst (detect_stall (B := lite) spiked_window world0).
Proof. vm_compute. repeat split. Qed.

(** C4, amended.  On every window shorter than the configured size
    [detect_stall] returns [False], the value it also returns for a full
    window that is not stalled, and never [True]; it does so whatever the
    stall threshold is, which it does not even resolve: it logs the
    resolved size and that it is waiting, nothing else. *)
Theorem insufficient_data_reports_no_stall {B : Builtins}
    (w : world) (d : deque) (n : Z) :
  fst (get_rolling_window_size w) = inr n ->
  len d < n ->
  detect_stall d w =
    (inr false,
     logged w [(INFO, Rolling_window_size n); (DEBUG, Waiting_for (len d) n)]).
Proof.
  intros Hn Hshort. unfold detect_stall.
  rewrite (bind_ok _ _ _ _ _ _ _ (get_rolling_window_size_ok w n Hn)).
  destruct (Z.ltb_spec (len d) n) as [_ | Hge]; [| lia].
  rewrite bind_logger, logged_logged. reflexivity.
Qed.

(** One reading in a window of five. *)
Lemma insufficient_data_reports_no_stall_witness :
  detect_stall (B := lite) short_window world0 =
    (inr false,
     logged world0 [(INFO, Rolling_window_size 5); (DEBUG, Waiting_for 1 5)]).
Proof.
  apply (insufficient_data_reports_no_stall (B := lite) world0 short_window 5).
  - reflexivity.
  - vm_compute. reflexivity.
Defined.

(** ** Processing a message *)

Section MessageFacts.

Context {B : Builtins}.

Lemma rolling_window_append_run (x : pyval) (w : world) (records : list log_record) :
  rolling_window_append x (logged w records) = (inr tt, logged (pushed w x) records).
Proof. reflexivity. Qed.

(** The body of [process_message] either only logs, or pushes the
    [heart_rate] of an accepted message and logs; in both cases it may
    end by raising. *)
Lemma process_message_body_outcome (message : string) (window_size : Z)
    (w w' : world) (r : result unit) :
  process_message_body message window_size w = (r, w') ->
  exists records : list log_record,
    w' = logged w records \/
    exists heart_rate,
      accepted message heart_rate /\ w' = logged (pushed w heart_rate) records.
Proof.
  unfold process_message_body. intros H.
  rewrite bind_logger, bind_lift in H.
  destruct (json_loads message) as [e|data] eqn:Hdata.
  { injection H as <- <-. eexists. left. reflexivity. }
  rewrite bind_lift in H.
  destruct (py_get data "heart_rate") as [e|heart_rate] eqn:Hhr.
  { injection H as <- <-. eexists. left. reflexivity. }
  rewrite bind_lift in H.
  destruct (py_get data "timestamp") as [e|timestamp] eqn:Hts.
  { injection H as <- <-. eexists. left. reflexivity. }
  rewrite bind_logger, logged_logged in H.
  destruct (is_None heart_rate) eqn:Hn1; cbn [orb] in H; cbv beta iota in H.
  { rewrite logger_run, logged_logged in H. injection H as <- <-.
    eexists. left. reflexivity. }
  destruct (is_None timestamp) eqn:Hn2; cbv beta iota in H.
  { rewrite logger_run, logged_logged in H. injection H as <- <-.
    eexists. left. reflexivity. }
  match type of H with
  | context [bind (alert_on_heart_rate_anomaly ?v) ?k ?w1] =>
      destruct (alert_frame w1 v) as (recs & Hsnd & Hfst);
      destruct (alert_on_heart_rate_anomaly v w1) as [[e|[]] w2] eqn:Ha;
      simpl in Hsnd, Hfst; subst w2;
      [ rewrite (bind_raises _ _ _ _ _ _ _ Ha) in H
      | rewrite (bind_ok _ _ _ _ _ _ _ Ha) in H ]
  end.
  { rewrite logged_logged in H. injection H as <- <-.
    eexists. left. reflexivity. }
  assert (Hacc : accepted message heart_rate).
  { exists data, timestamp. rewrite Hdata. auto 10. }
  rewrite logged_logged in H.
  unfold bind at 1 in H. rewrite rolling_window_append_run in H.
  unfold bind at 1, the_rolling_window at 1 in H.
  match type of H with
  | context [bind (detect_stall ?d) ?k ?w1] =>
      destruct (detect_stall_frame d w1) as (recs' & Hsnd');
      destruct (detect_stall d w1) as [[e|stalled] w2] eqn:Hd;
      simpl in Hsnd'; subst w2;
      [ rewrite (bind_raises _ _ _ _ _ _ _ Hd) in H
      | rewrite (bind_ok _ _ _ _ _ _ _ Hd) in H ]
  end.
  { rewrite logged_logged in H. injection H as <- <-. eexists. right.
    exists heart_rate. split; [exact Hacc | reflexivity]. }
  rewrite logged_logged in H.
  destruct stalled; cbv beta iota in H.
  - rewrite logger_run, logged_logged in H. injection H as <- <-.
    eexists. right. exists heart_rate. split; [exact Hacc | reflexivity].
  - injection H as <- <-.
    eexists. right. exists heart_rate. split; [exact Hacc | reflexivity].
Qed.

(** The handlers of [process_message] take every exception. *)
Lemma handlers_return (message : string) (e : exn) (w : world) :
  exists t,
    dispatch
      [ (isinstance_JSONDecodeError,
         fun e => logger ERROR (JSON_decoding_error message e));
        (isinstance_Exception,
         fun e => logger ERROR (Error_processing_message message e)) ] e w
    = (inr tt, logged w [(ERROR, t)]).
Proof.
  destruct e; cbn [dispatch isinstance_JSONDecodeError isinstance_Exception];
    eexists; apply logger_run.
Qed.

(** [process_message] returns, having either only logged or pushed the
    [heart_rate] of an accepted message and logged. *)
Lemma process_message_outcome (message : string) (window_size : Z) (w : world) :
  exists (w' : world) (records : list log_record),
    process_message message window_size w = (inr tt, w') /\
    (w' = logged w records \/
     exists heart_rate,
       accepted message heart_rate /\ w' = logged (pushed w heart_rate) records).
Proof.
  unfold process_message, try_except.
  destruct (process_message_body message window_size w) as [r w1] eqn:Hbody.
  destruct (process_message_body_outcome _ _ _ _ _ Hbody) as (records & Hw1).
  destruct r as [e|[]].
  - destruct (handlers_return message e w1) as (t & ->).
    exists (logged w1 [(ERROR, t)]), (records ++ [(ERROR, t)]).
    split; [reflexivity |].
    destruct Hw1 as [-> | (hr & Hacc & ->)]; rewrite logged_logged.
    + left. reflexivity.
    + right. exists hr. split; [exact Hacc | reflexivity].
  - exists w1, records. split; [reflexivity | exact Hw1].
Qed.

Lemma deque_append_maxlen (d : deque) (x : pyval) :
  maxlen (deque_append d x) = maxlen d.
Proof.
  unfold deque_append. destruct (maxlen d) as [n|]; [| reflexivity].
  destruct (n <? _)%nat; reflexivity.
Qed.

Lemma tl_Forall (A : Type) (P : A -> Prop) (xs : list A) :
  Forall P xs -> Forall P (tl xs).
Proof. intros H. destruct H; [constructor | assumption]. Qed.

Lemma deque_append_numbers (d : deque) (x : pyval) :
  all_numbers d -> is_number x = true -> all_numbers (deque_append d x).
Proof.
  unfold all_numbers. intros Hd Hx.
  assert (H : Forall (fun v => is_number v = true) (items d ++ [x])).
  { apply Forall_app. split; [exact Hd | constructor; [exact Hx | constructor]]. }
  unfold deque_append. destruct (maxlen d) as [n|]; [| exact H].
  destruct (n <? _)%nat; simpl; [apply tl_Forall |]; exact H.
Qed.

(** What an accepted message decodes to is settled by the message. *)
Lemma accepted_decodes (message : string) (hr : pyval) (data : pyval) :
  accepted message hr ->
  json_loads message = inr data ->
  py_get data "heart_rate" = inr hr /\
  py_get data "timestamp" <> inr PNone /\
  is_number hr = true.
Proof.
  intros (data' & ts & Hd & Hhr & Hts & Hn1 & Hn2 & Hnum) Hdata.
  rewrite Hdata in Hd. injection Hd as <-.
  split; [exact Hhr |]. split; [| exact Hnum].
  rewrite Hts. intros E. injection E as ->. discriminate.
Qed.

(** [process_message] leaves the environment and the capacity of the
    window alone. *)
Lemma process_message_keeps (message : string) (window_size : Z) (w : world) :
  fst (process_message message window_size w) = inr tt /\
  os_environ (snd (process_message message window_size w)) = os_environ w /\
  maxlen (rolling_window (snd (process_message message window_size w)))
    = maxlen (rolling_window w).
Proof.
  destruct (process_message_outcome message window_size w)
    as (w' & records & -> & [-> | (hr & _ & ->)]); simpl;
    repeat split; apply deque_append_maxlen.
Qed.

End MessageFacts.

(** C1 (malformed input resilience).  Whatever the message, the window
    and the environment, [process_message] returns; and when the message
    does not decode, or decodes to a payload whose [heart_rate] is absent
    or null, or whose [timestamp] is, the rolling window is left as it
    was. *)
Theorem malformed_input_resilience {B : Builtins}
    (message : string) (window_size : Z) (w : world) :
  let out := process_message message window_size w in
  fst out = inr tt /\
  (forall e, json_loads message = inl e ->
     rolling_window (snd out) = rolling_window w) /\
  (forall data, json_loads message = inr data ->
     py_get data "heart_rate" = inr PNone ->
     rolling_window (snd out) = rolling_window w) /\
  (forall data, json_loads message = inr data ->
     py_get data "timestamp" = inr PNone ->
     rolling_window (snd out) = rolling_window w).
Proof.
  cbv zeta.
  destruct (process_message_outcome message window_size w)
    as (w' & records & -> & Hw'). simpl.
  split; [reflexivity |].
  destruct Hw' as [-> | (hr & Hacc & ->)].
  { repeat split; reflexivity. }
  repeat split.
  - intros e He. destruct Hacc as (data & _ & Hd & _). congruence.
  - intros data Hdata Hnone.
    destruct (accepted_decodes _ _ _ Hacc Hdata) as (Hhr & _ & Hnum).
    rewrite Hnone in Hhr. injection Hhr as <-. discriminate.
  - intros data Hdata Hnone.
    destruct (accepted_decodes _ _ _ Hacc Hdata) as (_ & Hts & _).
    contradiction.
Qed.

(** The three failure inputs on a window holding one reading. *)
Lemma malformed_input_resilience_witness :
  rolling_window (snd (process_message (B := lite) not_json 5 world_warm))
    = short_window /\
  rolling_window (snd (process_message (B := lite) no_heart_rate 5 world_warm))
    = short_window /\
  rolling_window (snd (process_message (B := lite) no_timestamp 5 world_warm))
    = short_window.
Proof.
  split; [| split].
  - apply (proj1 (proj2 (malformed_input_resilience (B := lite)
                           not_json 5 world_warm)) JSONDecodeError).
    vm_compute. reflexivity.
  - apply (proj1 (proj2 (proj2 (malformed_input_resilience (B := lite)
                                  no_heart_rate 5 world_warm)))
             (PDict [("timestamp", PStr t1)]));
      vm_compute; reflexivity.
  - apply (proj2 (proj2 (proj2 (malformed_input_resilience (B := lite)
                                  no_timestamp 5 world_warm)))
             (PDict [("heart_rate", F 72)]));
      vm_compute; reflexivity.
Defined.

(** C10, as stated, fails: a failure can come after the push.  With four
    readings of 70.0 in the window, a message whose [heart_rate] is the
    integer [10^400] passes decoding, validation and the comparison with
    the high threshold, is pushed, and then makes [max - min] in stall
    detection raise [OverflowError]: [process_message] logs the error and
    returns, and the window has changed.  The same happens from the empty
    window of [main] on the feed of these five messages. *)
Lemma failure_after_the_push :
  let out := process_message (B := lite) huge_reading 5 world_four in
  fst out = inr tt /\
  decisions (sink (snd out)) =
    [(WARNING, ALERT_high (PInt (10 ^ 400)));
     (ERROR, Error_processing_message huge_reading OverflowError)] /\
  items (rolling_window (snd out)) = [F 70; F 70; F 70; F 70; PInt (10 ^ 400)] /\
  rolling_window (snd out) <> rolling_window world_four /\
  items (rolling_window (snd (main (B := lite) overflow_feed world0)))
    = [F 70; F 70; F 70; F 70; PInt (10 ^ 400)].
Proof.
  vm_compute. repeat split. discriminate.
Qed.

(** ** The consumer loop *)

Section LoopFacts.

Context {B : Builtins}.

Lemma get_kafka_topic_run (w : world) :
  exists topic,
    get_kafka_topic w = (inr topic, logged w [(INFO, Kafka_topic topic)]).
Proof.
  unfold get_kafka_topic, bind, os_getenv, logger, ret. simpl.
  destruct (assoc _ _); eexists; reflexivity.
Qed.

Lemma get_kafka_consumer_group_id_run (w : world) :
  exists group_id,
    get_kafka_consumer_group_id w
      = (inr group_id, logged w [(INFO, Kafka_consumer_group_id group_id)]).
Proof.
  unfold get_kafka_consumer_group_id, bind, os_getenv, logger, ret. simpl.
  destruct (assoc _ _); eexists; reflexivity.
Qed.

(** The loop returns when the feed ends, with the environment and the
    capacity of the window as they were. *)
Lemma consume_keeps (feed : list kafka_message) :
  forall (window_size : Z) (w : world),
    fst (consume feed window_size w) = inr tt /\
    os_environ (snd (consume feed window_size w)) = os_environ w /\
    maxlen (rolling_window (snd (consume feed window_size w)))
      = maxlen (rolling_window w).
Proof.
  induction feed as [|message rest IH]; intros window_size w.
  - simpl. auto.
  - cbn [consume]. cbv zeta. rewrite bind_logger.
    destruct (process_message_keeps (value message) window_size
                (logged w [(DEBUG, Received_message (offset message) (value message))]))
      as (Hfst & Henv & Hmax).
    destruct (process_message (value message) window_size
                (logged w [(DEBUG, Received_message (offset message) (value message))]))
      as [r w1] eqn:Hrun.
    simpl in Hfst, Henv, Hmax. subst r.
    rewrite (bind_ok _ _ _ _ _ _ _ Hrun).
    destruct (IH window_size w1) as (H1 & H2 & H3).
    rewrite H1, H2, H3, Henv, Hmax. auto.
Qed.

(** [main] with the window size resolved to a usable capacity. *)
Lemma main_keeps (feed : list kafka_message) (w : world) (n : Z) :
  fst (get_rolling_window_size w) = inr n ->
  0 <= n < 2 ^ 63 ->
  fst (main feed w) = inr tt /\
  os_environ (snd (main feed w)) = os_environ w /\
  maxlen (rolling_window (snd (main feed w))) = Some (Z.to_nat n).
Proof.
  intros Hn Hpos.
  destruct (main feed w) as [r w'] eqn:Hmain. unfold main in Hmain.
  rewrite bind_logger in Hmain.
  destruct (get_kafka_topic_run (logged w [(INFO, START_consumer)]))
    as (topic & Htopic).
  rewrite (bind_ok _ _ _ _ _ _ _ Htopic), logged_logged in Hmain.
  match type of Hmain with
  | context [bind get_kafka_consumer_group_id ?k ?w1] =>
      destruct (get_kafka_consumer_group_id_run w1) as (group_id & Hgroup)
  end.
  rewrite (bind_ok _ _ _ _ _ _ _ Hgroup), logged_logged in Hmain.
  match type of Hmain with
  | context [bind get_rolling_window_size ?k ?w1] =>
      assert (Hn' : fst (get_rolling_window_size w1) = inr n)
        by (rewrite <- Hn; apply get_rolling_window_size_env; reflexivity);
      rewrite (bind_ok _ _ _ _ _ _ _ (get_rolling_window_size_ok w1 n Hn'))
        in Hmain
  end.
  rewrite logged_logged, bind_logger, logged_logged in Hmain.
  rewrite bind_logger, logged_logged, bind_lift in Hmain.
  rewrite (deque_new_ok n Hpos) in Hmain.
  unfold bind at 1, set_rolling_window at 1 in Hmain.
  rewrite bind_logger in Hmain.
  match type of Hmain with
  | context [bind (try_except (consume feed n) ?h) ?k ?w1] =>
      destruct (consume_keeps feed n w1) as (Hfst & Henv & Hmax);
      assert (Htry : try_except (consume feed n) h w1
                     = (inr tt, snd (consume feed n w1)))
        by (unfold try_except;
            destruct (consume feed n w1) as [[e|[]] w2];
            simpl in Hfst; [discriminate | reflexivity]);
      rewrite (bind_ok _ _ _ _ _ _ _ Htry) in Hmain
  end.
  rewrite logger_run in Hmain. injection Hmain as <- <-.
  split; [reflexivity | split; [exact Henv | exact Hmax]].
Qed.

End LoopFacts.

(** C9, as stated, fails: the tunables are not resolved once at startup.
    At startup [main] resolves the window size only (the getter logs it
    and [main] logs it again); the thresholds are first resolved while a
    message is processed, and every call of [process_message] resolves
    the thresholds and the window size anew.  What a check uses is what
    the environment holds at the time of the call: with the high
    threshold set to 200 the reading 130 raises no alert, with the
    default environment it does. *)
Lemma tunables_are_resolved_per_message :
  resolutions (sink (snd (main (B := lite) [] world0)))
    = [(INFO, Rolling_window_size 5); (INFO, Rolling_window_size 5)] /\
  resolutions (sink (snd (process_message (B := lite) spike 5 world_warm)))
    = [(INFO, High_threshold (Z2float 120)); (INFO, Low_threshold (Z2float 40));
       (INFO, Rolling_window_size 5)] /\
  decisions (sink (snd (process_message (B := lite) spike 5 world_warm)))
    = [(WARNING, ALERT_high (F 130)); (DEBUG, Waiting_for 2 5)] /\
  rolling_window world_high_200 = rolling_window world_warm /\
  decisions (sink (snd (process_message (B := lite) spike 5 world_high_200)))
    = [(DEBUG, Waiting_for 2 5)].
Proof. vm_compute. repeat split. Qed.

(** C8 (end-to-end scenario).  With no variable set the tunables resolve
    to window size 5, stall threshold 5.0, high 120.0 and low 40.0.  On
    the readings 70, 71, 72, 70, 71 the run waits four times, then finds
    the range 2.0 stalled and reports the stall; it raises no alert.  On
    the further reading 130 it raises the high alert, the window becomes
    71, 72, 70, 71, 130 and its range 60.0 is not stalled. *)
Theorem end_to_end_scenario :
  let after5 := main (B := lite) calm_feed world0 in
  let after6 := main (B := lite) spiked_feed world0 in
  fst (get_rolling_window_size (B := lite) world0) = inr 5 /\
  fst (get_stall_threshold (B := lite) world0) = inr (Z2float 5) /\
  fst (get_heart_rate_threshold_high (B := lite) world0) = inr (Z2float 120) /\
  fst (get_heart_rate_threshold_low (B := lite) world0) = inr (Z2float 40) /\
  fst after5 = inr tt /\
  items (rolling_window (snd after5)) = [F 70; F 71; F 72; F 70; F 71] /\
  decisions (sink (snd after5)) =
    [(DEBUG, Waiting_for 1 5); (DEBUG, Waiting_for 2 5);
     (DEBUG, Waiting_for 3 5); (DEBUG, Waiting_for 4 5);
     (DEBUG, Heart_rate_range (F 2) true);
     (INFO, STALL_DETECTED (PStr t5) (F 71) 5)] /\
  fst after6 = inr tt /\
  items (rolling_window (snd after6)) = [F 71; F 72; F 70; F 71; F 130] /\
  decisions (sink (snd after6)) =
    decisions (sink (snd after5)) ++
    [(WARNING, ALERT_high (F 130));
     (DEBUG, Heart_rate_range (F 60) false)].
Proof. vm_compute. repeat split. Qed.

(** * Further properties of the program *)

(** ** Actions that read the environment and write the log *)

Section Readers.

Context {B : Builtins}.

Variable p : log_record -> bool.

Lemma reads_ret (A : Type) (a : A) : reads_and_logs p (ret a).
Proof.
  exists (fun _ => inr a, fun _ => []). intros w. simpl.
  rewrite logged_nil. split; [reflexivity | constructor].
Qed.

Lemma reads_lift (A : Type) (r : result A) : reads_and_logs p (lift r).
Proof.
  exists (fun _ => r, fun _ => []). intros w. simpl.
  rewrite logged_nil. split; [reflexivity | constructor].
Qed.

Lemma reads_logger (lv : level) (t : template) :
  p (lv, t) = true -> reads_and_logs p (logger lv t).
Proof.
  intros Hp. exists (fun _ => inr tt, fun _ => [(lv, t)]). intros w. simpl.
  split; [reflexivity | constructor; [exact Hp | constructor]].
Qed.

Lemma reads_os_getenv (key : string) (default : pyval) :
  reads_and_logs p (os_getenv key default).
Proof.
  exists (fun env => inr match assoc key env with
                         | Some s => PStr s
                         | None => default
                         end, fun _ => []).
  intros w. simpl. rewrite logged_nil. split; [reflexivity | constructor].
Qed.

Lemma reads_bind (A C : Type) (m : M A) (k : A -> M C) :
  reads_and_logs p m -> (forall a, reads_and_logs p (k a)) ->
  reads_and_logs p (bind m k).
Proof.
  intros [[f g] Hm] Hk.
  exists (fun env => match f env with
                     | inl e => inl e
                     | inr a => fst (proj1_sig (Hk a)) env
                     end,
          fun env => g env ++ match f env with
                              | inl e => []
                              | inr a => snd (proj1_sig (Hk a)) env
                              end).
  intros w. simpl. destruct (Hm w) as [Hrun Hall]. simpl in Hrun, Hall.
  unfold bind. rewrite Hrun.
  destruct (f (os_environ w)) as [e|a].
  - rewrite app_nil_r. split; [reflexivity | exact Hall].
  - destruct (Hk a) as [[fa ga] Ha]. simpl.
    destruct (Ha (logged w (g (os_environ w)))) as [Hrun' Hall'].
    simpl in Hrun', Hall'. rewrite Hrun', logged_logged.
    split; [reflexivity | apply Forall_app; split; assumption].
Qed.

Lemma reads_if (A : Type) (b : bool) (m1 m2 : M A) :
  reads_and_logs p m1 -> reads_and_logs p m2 ->
  reads_and_logs p (if b then m1 else m2).
Proof. destruct b; auto. Qed.

(** Two runs of such an action in worlds with the same environment
    return the same and log the same. *)
Lemma reads_same (A : Type) (m : M A) (w w' : world) :
  reads_and_logs p m ->
  os_environ w' = os_environ w ->
  exists records,
    m w = (fst (m w), logged w records) /\
    m w' = (fst (m w), logged w' records) /\
    Forall (fun r => p r = true) records.
Proof.
  intros [[f g] Hm] Henv. exists (g (os_environ w)).
  destruct (Hm w) as [Hw Hall]. destruct (Hm w') as [Hw' _].
  simpl in Hw, Hw', Hall. rewrite Hw, Hw', Henv. simpl. auto.
Qed.

End Readers.

Ltac reads_step :=
  first [ apply reads_ret
        | apply reads_lift
        | apply reads_os_getenv
        | apply reads_logger; reflexivity
        | apply reads_if
        | apply reads_bind; [| intro] ].

Section CheckReaders.

Context {B : Builtins}.

Lemma reads_get_rolling_window_size :
  reads_and_logs is_check_record get_rolling_window_size.
Proof. unfold get_rolling_window_size. repeat reads_step. Qed.

Lemma reads_get_stall_threshold :
  reads_and_logs is_check_record get_stall_threshold.
Proof. unfold get_stall_threshold. repeat reads_step. Qed.

Lemma reads_get_heart_rate_threshold_high :
  reads_and_logs is_check_record get_heart_rate_threshold_high.
Proof. unfold get_heart_rate_threshold_high. repeat reads_step. Qed.

Lemma reads_get_heart_rate_threshold_low :
  reads_and_logs is_check_record get_heart_rate_threshold_low.
Proof. unfold get_heart_rate_threshold_low. repeat reads_step. Qed.

Lemma reads_alert (heart_rate : pyval) :
  reads_and_logs is_check_record (alert_on_heart_rate_anomaly heart_rate).
Proof.
  unfold alert_on_heart_rate_anomaly.
  apply reads_bind; [apply reads_get_heart_rate_threshold_high | intro].
  apply reads_bind; [apply reads_get_heart_rate_threshold_low | intro].
  repeat reads_step.
Qed.

Lemma reads_detect_stall (d : deque) :
  reads_and_logs is_check_record (detect_stall d).
Proof.
  unfold detect_stall.
  apply reads_bind; [apply reads_get_rolling_window_size | intro].
  apply reads_if; [repeat reads_step |].
  do 3 (apply reads_bind; [apply reads_lift | intro]).
  apply reads_bind; [apply reads_get_stall_threshold | intro].
  repeat reads_step.
Qed.

End CheckReaders.

(** ** One message, path by path *)

Section MessagePaths.

Context {B : Builtins}.

Lemma handlers_write (message : string) (e : exn) (w : world) :
  dispatch
    [ (isinstance_JSONDecodeError,
       fun e => logger ERROR (JSON_decoding_error message e));
      (isinstance_Exception,
       fun e => logger ERROR (Error_processing_message message e)) ] e w
  = (inr tt, logged w [handler_record message e]).
Proof. destruct e; reflexivity. Qed.

Lemma process_message_caught (message : string) (window_size : Z) (w : world) :
  process_message message window_size w
  = caught message (process_message_body message window_size w).
Proof.
  unfold process_message, try_except, caught.
  destruct (process_message_body message window_size w) as [[e|[]] w'].
  - apply handlers_write.
  - reflexivity.
Qed.

(** The message does not decode. *)
Lemma run_undecodable (message : string) (window_size : Z) (w : world) (e : exn) :
  json_loads message = inl e ->
  process_message message window_size w
  = (inr tt, logged w [(DEBUG, Raw_message message); handler_record message e]).
Proof.
  intros H. rewrite process_message_caught. unfold process_message_body.
  rewrite bind_logger, bind_lift, H. unfold caught.
  rewrite logged_logged. reflexivity.
Qed.

(** The payload has no [get]. *)
Lemma run_not_an_object (message : string) (window_size : Z) (w : world)
    (data : pyval) (e : exn) :
  json_loads message = inr data ->
  py_get data "heart_rate" = inl e ->
  process_message message window_size w
  = (inr tt, logged w [(DEBUG, Raw_message message); handler_record message e]).
Proof.
  intros H1 H2. rewrite process_message_caught. unfold process_message_body.
  rewrite bind_logger, bind_lift, H1, bind_lift, H2. unfold caught.
  rewrite logged_logged. reflexivity.
Qed.

(** A dict answers every [get]. *)
Lemma get_after_get (data : pyval) (key key' : string) (v : pyval) :
  py_get data key = inr v -> exists v', py_get data key' = inr v'.
Proof.
  destruct data; try discriminate. intros _. simpl.
  destruct (assoc key' kv); eauto.
Qed.

(** A required field is [None]. *)
Lemma run_invalid (message : string) (window_size : Z) (w : world)
    (data heart_rate timestamp : pyval) :
  json_loads message = inr data ->
  py_get data "heart_rate" = inr heart_rate ->
  py_get data "timestamp" = inr timestamp ->
  is_None heart_rate || is_None timestamp = true ->
  process_message message window_size w
  = (inr tt, logged w [(DEBUG, Raw_message message);
                       (INFO, Processed_JSON_message data);
                       (ERROR, Invalid_message_format message)]).
Proof.
  intros H1 H2 H3 H4. rewrite process_message_caught. unfold process_message_body.
  rewrite bind_logger, bind_lift, H1, bind_lift, H2, bind_lift, H3.
  rewrite bind_logger, logged_logged, H4, logger_run, logged_logged.
  reflexivity.
Qed.

(** Both fields are there: the alert check, the push, the stall check
    and the report, in this order; an exception on the way is logged. *)
Lemma run_valid (message : string) (window_size : Z) (w : world)
    (data heart_rate timestamp : pyval) :
  json_loads message = inr data ->
  py_get data "heart_rate" = inr heart_rate ->
  py_get data "timestamp" = inr timestamp ->
  is_None heart_rate || is_None timestamp = false ->
  process_message message window_size w
  = caught message
      (bind (alert_on_heart_rate_anomaly heart_rate)
         (fun _ =>
            bind (rolling_window_append heart_rate)
              (fun _ =>
                 bind the_rolling_window
                   (fun d =>
                      bind (detect_stall d)
                        (fun stalled =>
                           if stalled
                           then logger INFO
                                  (STALL_DETECTED timestamp heart_rate window_size)
                           else ret tt))))
         (logged w [(DEBUG, Raw_message message);
                    (INFO, Processed_JSON_message data)])).
Proof.
  intros H1 H2 H3 H4. rewrite process_message_caught. unfold process_message_body.
  rewrite bind_logger, bind_lift, H1, bind_lift, H2, bind_lift, H3.
  rewrite bind_logger, logged_logged, H4. reflexivity.
Qed.

End MessagePaths.

Section ValidMessages.

Context {B : Builtins}.

Lemma alert_same (heart_rate : pyval) (w w' : world) :
  os_environ w' = os_environ w ->
  exists records,
    alert_on_heart_rate_anomaly heart_rate w
      = (fst (alert_on_heart_rate_anomaly heart_rate w), logged w records) /\
    alert_on_heart_rate_anomaly heart_rate w'
      = (fst (alert_on_heart_rate_anomaly heart_rate w), logged w' records) /\
    Forall (fun r => is_check_record r = true) records.
Proof. apply reads_same, reads_alert. Qed.

Lemma detect_stall_same (d : deque) (w w' : world) :
  os_environ w' = os_environ w ->
  exists records,
    detect_stall d w = (fst (detect_stall d w), logged w records) /\
    detect_stall d w' = (fst (detect_stall d w), logged w' records) /\
    Forall (fun r => is_check_record r = true) records.
Proof. apply reads_same, reads_detect_stall. Qed.

(** A message with both fields, in full: what the alert check logs; then,
    if that check raised, the record of its exception and no push;
    otherwise the push, what the stall check logs on the pushed window,
    and its verdict. *)
Lemma run_valid_shape (message : string) (window_size : Z) (w : world)
    (data heart_rate timestamp : pyval) :
  json_loads message = inr data ->
  py_get data "heart_rate" = inr heart_rate ->
  py_get data "timestamp" = inr timestamp ->
  is_None heart_rate || is_None timestamp = false ->
  exists alert_records,
    Forall (fun r => is_check_record r = true) alert_records /\
    match fst (alert_on_heart_rate_anomaly heart_rate w) with
    | inl e =>
        process_message message window_size w
        = (inr tt,
           logged w ([(DEBUG, Raw_message message);
                      (INFO, Processed_JSON_message data)]
                     ++ alert_records ++ [handler_record message e]))
    | inr _ =>
        exists stall_records,
          Forall (fun r => is_check_record r = true) stall_records /\
          process_message message window_size w
          = (inr tt,
             logged (pushed w heart_rate)
               ([(DEBUG, Raw_message message);
                 (INFO, Processed_JSON_message data)]
                ++ alert_records ++ stall_records
                ++ verdict_records message timestamp heart_rate window_size
                     (fst (detect_stall
                             (deque_append (rolling_window w) heart_rate) w))))
    end.
Proof.
  intros H1 H2 H3 H4.
  rewrite (run_valid message window_size w data heart_rate timestamp H1 H2 H3 H4).
  set (w1 := logged w [(DEBUG, Raw_message message);
                       (INFO, Processed_JSON_message data)]).
  destruct (alert_same heart_rate w w1 eq_refl) as (ra & _ & Ha & Hall).
  exists ra. split; [exact Hall |].
  destruct (fst (alert_on_heart_rate_anomaly heart_rate w)) as [e|[]].
  - rewrite (bind_raises _ _ _ _ _ _ _ Ha). unfold caught, w1.
    rewrite !logged_logged, <- ?app_assoc. reflexivity.
  - rewrite (bind_ok _ _ _ _ _ _ _ Ha). unfold w1.
    rewrite logged_logged.
    unfold bind at 1. rewrite rolling_window_append_run.
    unfold bind at 1, the_rolling_window at 1.
    cbn [rolling_window logged pushed].
    set (d := deque_append (rolling_window w) heart_rate).
    match goal with
    | |- context [bind (detect_stall d) ?k ?w3] =>
        destruct (detect_stall_same d w w3 eq_refl) as (rd & _ & Hd & Hall')
    end.
    exists rd. split; [exact Hall' |].
    destruct (fst (detect_stall d w)) as [e|stalled].
    + rewrite (bind_raises _ _ _ _ _ _ _ Hd). unfold caught, logged, pushed.
      cbn. rewrite <- ?app_assoc. reflexivity.
    + rewrite (bind_ok _ _ _ _ _ _ _ Hd).
      destruct stalled; cbv beta iota.
      * rewrite logger_run. unfold caught, logged, pushed.
        cbn. rewrite <- ?app_assoc. reflexivity.
      * unfold ret, caught, logged, pushed. cbn.
        rewrite <- ?app_assoc, ?app_nil_r. reflexivity.
Qed.

End ValidMessages.

(** ** What one message writes and reports *)

Section MessageRecords.

Context {B : Builtins}.

Lemma handler_is_message_record (message : string) (e : exn) :
  is_message_record (handler_record message e) = true.
Proof. destruct e; reflexivity. Qed.

Lemma handler_is_no_stall_report (message : string) (e : exn) :
  is_stall_report (handler_record message e) = false.
Proof. destruct e; reflexivity. Qed.

Lemma check_is_message_record (r : log_record) :
  is_check_record r = true -> is_message_record r = true.
Proof. unfold is_message_record. intros ->. reflexivity. Qed.

Lemma check_is_no_stall_report (r : log_record) :
  is_check_record r = true -> is_stall_report r = false.
Proof.
  destruct r as [lv t]. destruct t; simpl; intros H;
    try reflexivity; discriminate.
Qed.

Lemma checks_are_message_records (records : list log_record) :
  Forall (fun r => is_check_record r = true) records ->
  Forall (fun r => is_message_record r = true) records.
Proof. apply Forall_impl. exact check_is_message_record. Qed.

Lemma checks_hold_no_stall_report (records : list log_record) (r : log_record) :
  Forall (fun r => is_check_record r = true) records ->
  In r records -> is_stall_report r = false.
Proof.
  intros Hall Hin. apply check_is_no_stall_report.
  apply (proj1 (Forall_forall _ _) Hall r Hin).
Qed.

Lemma verdict_is_message_record (message : string) (ts hr : pyval)
    (window_size : Z) (verdict : result bool) :
  Forall (fun r => is_message_record r = true)
         (verdict_records message ts hr window_size verdict).
Proof.
  destruct verdict as [e|[]]; simpl; repeat constructor.
  apply handler_is_message_record.
Qed.

(** Every record a call writes is one of the per-message records, and
    the log it found is kept. *)
Lemma process_message_records (message : string) (window_size : Z) (w : world) :
  exists records,
    sink (snd (process_message message window_size w)) = sink w ++ records /\
    Forall (fun r => is_message_record r = true) records.
Proof.
  destruct (json_loads message) as [e|data] eqn:H1.
  { rewrite (run_undecodable message window_size w e H1).
    eexists. split; [reflexivity |].
    repeat constructor. apply handler_is_message_record. }
  destruct (py_get data "heart_rate") as [e|hr] eqn:H2.
  { rewrite (run_not_an_object message window_size w data e H1 H2).
    eexists. split; [reflexivity |].
    repeat constructor. apply handler_is_message_record. }
  destruct (get_after_get data "heart_rate" "timestamp" hr H2) as [ts H3].
  destruct (is_None hr || is_None ts) eqn:H4.
  { rewrite (run_invalid message window_size w data hr ts H1 H2 H3 H4).
    eexists. split; [reflexivity | repeat constructor]. }
  destruct (run_valid_shape message window_size w data hr ts H1 H2 H3 H4)
    as (ra & Hra & Hshape).
  destruct (fst (alert_on_heart_rate_anomaly hr w)) as [e|[]].
  - rewrite Hshape. eexists. split; [reflexivity |].
    repeat (apply Forall_app; split); try (repeat constructor).
    + apply checks_are_message_records, Hra.
    + apply handler_is_message_record.
  - destruct Hshape as (rd & Hrd & ->). eexists. split; [reflexivity |].
    repeat (apply Forall_app; split); try (repeat constructor).
    + apply checks_are_message_records, Hra.
    + apply checks_are_message_records, Hrd.
    + apply verdict_is_message_record.
Qed.

End MessageRecords.

(** On the three ways a message is dropped before any check, the call
    writes exactly these records.  A text that does not decode: the raw
    message, then the record of the first [except] clause for a
    [JSONDecodeError] and of the second for any other exception of the
    decoder.  A payload without [get] (not an object): the raw message
    and the [AttributeError], without the "Processed JSON message" line.
    A [heart_rate] or [timestamp] that is [None]: the raw message, the
    decoded payload, and "Invalid message format". *)
Theorem dropped_message_records {B : Builtins}
    (message : string) (window_size : Z) (w : world) :
  (forall e, json_loads message = inl e ->
     process_message message window_size w
     = (inr tt,
        logged w [(DEBUG, Raw_message message);
                  if isinstance_JSONDecodeError e
                  then (ERROR, JSON_decoding_error message e)
                  else (ERROR, Error_processing_message message e)])) /\
  (forall data, json_loads message = inr data ->
     (forall kv, data <> PDict kv) ->
     process_message message window_size w
     = (inr tt,
        logged w [(DEBUG, Raw_message message);
                  (ERROR, Error_processing_message message AttributeError)])) /\
  (forall data heart_rate timestamp, json_loads message = inr data ->
     py_get data "heart_rate" = inr heart_rate ->
     py_get data "timestamp" = inr timestamp ->
     is_None heart_rate || is_None timestamp = true ->
     process_message message window_size w
     = (inr tt,
        logged w [(DEBUG, Raw_message message);
                  (INFO, Processed_JSON_message data);
                  (ERROR, Invalid_message_format message)])).
Proof.
  split; [| split].
  - intros e He. apply (run_undecodable message window_size w e He).
  - intros data Hdata Hnot.
    apply (run_not_an_object message window_size w data AttributeError Hdata).
    destruct data; try reflexivity. exfalso. apply (Hnot kv). reflexivity.
  - intros data hr ts. apply run_invalid.
Qed.

(** The prose, the payload [42], and the two messages lacking a field. *)
Lemma dropped_message_records_witness :
  sink (snd (process_message (B := lite) not_json 5 world_warm))
    = [(DEBUG, Raw_message not_json);
       (ERROR, JSON_decoding_error not_json JSONDecodeError)] /\
  sink (snd (process_message (B := lite) not_an_object 5 world_warm))
    = [(DEBUG, Raw_message not_an_object);
       (ERROR, Error_processing_message not_an_object AttributeError)] /\
  sink (snd (process_message (B := lite) no_heart_rate 5 world_warm))
    = [(DEBUG, Raw_message no_heart_rate);
       (INFO, Processed_JSON_message (PDict [("timestamp", PStr t1)]));
       (ERROR, Invalid_message_format no_heart_rate)].
Proof.
  destruct (dropped_message_records (B := lite) not_json 5 world_warm)
    as (H1 & _ & _).
  destruct (dropped_message_records (B := lite) not_an_object 5 world_warm)
    as (_ & H2 & _).
  destruct (dropped_message_records (B := lite) no_heart_rate 5 world_warm)
    as (_ & _ & H3).
  split; [| split].
  - rewrite (H1 JSONDecodeError eq_refl). reflexivity.
  - rewrite (H2 (PInt 42) eq_refl ltac:(discriminate)). reflexivity.
  - rewrite (H3 (PDict [("timestamp", PStr t1)]) PNone (PStr t1)
               eq_refl eq_refl eq_refl eq_refl).
    reflexivity.
Defined.

(** A stall is reported only for a message that decoded to an object with
    both fields, neither of them [None], and a number for [heart_rate],
    with that message's [timestamp] and [heart_rate] and the
    [window_size] argument, and only when the alert check returned and
    the stall check on the window with the reading pushed says [True];
    and whenever the alert check returns and the stall check says [True],
    the stall is reported.  The log found is kept. *)
Theorem stall_report_justified {B : Builtins}
    (message : string) (window_size : Z) (w : world) :
  exists records,
    sink (snd (process_message message window_size w)) = sink w ++ records /\
    (forall r, In r records -> is_stall_report r = true ->
       exists data heart_rate timestamp,
         json_loads message = inr data /\
         py_get data "heart_rate" = inr heart_rate /\
         py_get data "timestamp" = inr timestamp /\
         is_None heart_rate = false /\
         is_None timestamp = false /\
         is_number heart_rate = true /\
         fst (alert_on_heart_rate_anomaly heart_rate w) = inr tt /\
         r = (INFO, STALL_DETECTED timestamp heart_rate window_size) /\
         fst (detect_stall (deque_append (rolling_window w) heart_rate) w)
           = inr true) /\
    (forall data heart_rate timestamp,
       json_loads message = inr data ->
       py_get data "heart_rate" = inr heart_rate ->
       py_get data "timestamp" = inr timestamp ->
       is_None heart_rate || is_None timestamp = false ->
       fst (alert_on_heart_rate_anomaly heart_rate w) = inr tt ->
       fst (detect_stall (deque_append (rolling_window w) heart_rate) w)
         = inr true ->
       In (INFO, STALL_DETECTED timestamp heart_rate window_size) records).
Proof.
  destruct (json_loads message) as [e|data] eqn:H1.
  { rewrite (run_undecodable message window_size w e H1).
    eexists. split; [reflexivity |]. split.
    - intros r [<- | [<- | []]] Hr; [discriminate |].
      rewrite handler_is_no_stall_report in Hr. discriminate.
    - intros; discriminate. }
  destruct (py_get data "heart_rate") as [e|hr] eqn:H2.
  { rewrite (run_not_an_object message window_size w data e H1 H2).
    eexists. split; [reflexivity |]. split.
    - intros r [<- | [<- | []]] Hr; [discriminate |].
      rewrite handler_is_no_stall_report in Hr. discriminate.
    - intros data' hr' ts' [= <-] Hhr. congruence. }
  destruct (get_after_get data "heart_rate" "timestamp" hr H2) as [ts H3].
  destruct (is_None hr || is_None ts) eqn:H4.
  { rewrite (run_invalid message window_size w data hr ts H1 H2 H3 H4).
    eexists. split; [reflexivity |]. split.
    - intros r [<- | [<- | [<- | []]]] Hr; discriminate.
    - intros data' hr' ts' [= <-] Hhr Hts. congruence. }
  destruct (run_valid_shape message window_size w data hr ts H1 H2 H3 H4)
    as (ra & Hra & Hshape).
  destruct (alert_frame w hr) as (_ & _ & Hnum).
  destruct (fst (alert_on_heart_rate_anomaly hr w)) as [e|[]] eqn:Ha.
  - rewrite Hshape. eexists. split; [reflexivity |]. split.
    + intros r Hin Hr. exfalso.
      apply in_app_or in Hin. destruct Hin as [[<- | [<- | []]] | Hin];
        try discriminate.
      apply in_app_or in Hin. destruct Hin as [Hin | [<- | []]].
      * rewrite (checks_hold_no_stall_report ra r Hra Hin) in Hr. discriminate.
      * rewrite handler_is_no_stall_report in Hr. discriminate.
    + intros data' hr' ts' [= <-] Hhr Hts _ Ha'.
      rewrite H2 in Hhr. injection Hhr as <-. congruence.
  - destruct Hshape as (rd & Hrd & ->).
    eexists. split; [reflexivity |]. split.
    + intros r Hin Hr.
      apply in_app_or in Hin. destruct Hin as [[<- | [<- | []]] | Hin];
        try discriminate.
      apply in_app_or in Hin. destruct Hin as [Hin | Hin].
      { rewrite (checks_hold_no_stall_report ra r Hra Hin) in Hr. discriminate. }
      apply in_app_or in Hin. destruct Hin as [Hin | Hin].
      { rewrite (checks_hold_no_stall_report rd r Hrd Hin) in Hr. discriminate. }
      destruct (fst (detect_stall (deque_append (rolling_window w) hr) w))
        as [e|[]] eqn:Hd; simpl in Hin.
      * destruct Hin as [<- | []].
        rewrite handler_is_no_stall_report in Hr. discriminate.
      * destruct Hin as [<- | []].
        apply orb_false_iff in H4. destruct H4 as [Hn1 Hn2].
        exists data, hr, ts. repeat split; auto.
      * destruct Hin.
    + intros data' hr' ts' [= <-] Hhr Hts _ _ Hd.
      rewrite H2 in Hhr. injection Hhr as <-.
      rewrite H3 in Hts. injection Hts as <-.
      rewrite Hd. cbn [verdict_records].
      apply in_or_app. right. apply in_or_app. right.
      apply in_or_app. right. left. reflexivity.
Qed.

(** The fifth calm reading on a window holding the first four. *)
Lemma stall_report_justified_witness :
  In (INFO, STALL_DETECTED (PStr t5) (F 71) 5)
     (sink (snd (process_message (B := lite) (reading t5 "71.0") 5 world_calm4))).
Proof.
  destruct (stall_report_justified (B := lite) (reading t5 "71.0") 5 world_calm4)
    as (records & Hsink & _ & Hreport).
  rewrite Hsink. apply in_or_app. right.
  apply (Hreport (PDict [("timestamp", PStr t5); ("heart_rate", F 71)])
           (F 71) (PStr t5)); vm_compute; reflexivity.
Defined.

(** ** Which messages reach the window *)

Section WindowContents.

Context {B : Builtins}.

Lemma accepted_heart_rate_of (message : string) (hr : pyval) :
  accepted message hr <-> heart_rate_of message = Some hr.
Proof.
  unfold accepted, heart_rate_of. split.
  - intros (data & ts & -> & -> & -> & -> & -> & ->). reflexivity.
  - destruct (json_loads message) as [e|data]; [discriminate |].
    destruct (py_get data "heart_rate") as [e|v] eqn:H1; [discriminate |].
    destruct (py_get data "timestamp") as [e|ts] eqn:H2; [discriminate |].
    destruct (is_None v) eqn:H3; [discriminate |].
    destruct (is_None ts) eqn:H4; [discriminate |].
    destruct (is_number v) eqn:H5; [| discriminate].
    simpl. intros [= <-]. exists data, ts. auto 10.
Qed.

Lemma alert_returns_on_number (w : world) (hr : pyval) (high low : float) :
  is_number hr = true ->
  fst (get_heart_rate_threshold_high w) = inr high ->
  fst (get_heart_rate_threshold_low w) = inr low ->
  fst (alert_on_heart_rate_anomaly hr w) = inr tt.
Proof.
  intros Hnum Hh Hl.
  destruct (alert_level_cases w hr high low Hnum Hh Hl) as (a & b & _ & _ & ->).
  reflexivity.
Qed.

Lemma alert_raises_without_high (w : world) (hr : pyval) (e : exn) :
  fst (get_heart_rate_threshold_high w) = inl e ->
  fst (alert_on_heart_rate_anomaly hr w) = inl e.
Proof.
  intros H. unfold alert_on_heart_rate_anomaly.
  rewrite (bind_raises _ _ _ _ _ _ _ (get_heart_rate_threshold_high_raises w e H)).
  reflexivity.
Qed.

Lemma alert_raises_without_low (w : world) (hr : pyval) (high : float) (e : exn) :
  fst (get_heart_rate_threshold_high w) = inr high ->
  fst (get_heart_rate_threshold_low w) = inl e ->
  fst (alert_on_heart_rate_anomaly hr w) = inl e.
Proof.
  intros Hh Hl. unfold alert_on_heart_rate_anomaly.
  rewrite (bind_ok _ _ _ _ _ _ _ (get_heart_rate_threshold_high_ok w high Hh)).
  assert (Hl' : fst (get_heart_rate_threshold_low
                       (logged w [(INFO, High_threshold high)])) = inl e).
  { rewrite <- Hl. apply get_heart_rate_threshold_low_env. reflexivity. }
  rewrite (bind_raises _ _ _ _ _ _ _ (get_heart_rate_threshold_low_raises _ e Hl')).
  reflexivity.
Qed.

(** The window after a call, from how the alert check ends: pushed when
    the message is valid and the check returns, untouched otherwise. *)
Lemma window_by_alert (message : string) (window_size : Z) (w : world) :
  rolling_window (snd (process_message message window_size w)) =
    match json_loads message with
    | inr data =>
        match py_get data "heart_rate", py_get data "timestamp" with
        | inr hr, inr ts =>
            if is_None hr || is_None ts then rolling_window w
            else match fst (alert_on_heart_rate_anomaly hr w) with
                 | inr _ => deque_append (rolling_window w) hr
                 | inl _ => rolling_window w
                 end
        | _, _ => rolling_window w
        end
    | inl _ => rolling_window w
    end.
Proof.
  destruct (json_loads message) as [e|data] eqn:H1.
  { rewrite (run_undecodable message window_size w e H1). reflexivity. }
  destruct (py_get data "heart_rate") as [e|hr] eqn:H2.
  { rewrite (run_not_an_object message window_size w data e H1 H2). reflexivity. }
  destruct (get_after_get data "heart_rate" "timestamp" hr H2) as [ts H3].
  rewrite H3.
  destruct (is_None hr || is_None ts) eqn:H4.
  { rewrite (run_invalid message window_size w data hr ts H1 H2 H3 H4).
    reflexivity. }
  destruct (run_valid_shape message window_size w data hr ts H1 H2 H3 H4)
    as (ra & _ & Hshape).
  destruct (fst (alert_on_heart_rate_anomaly hr w)) as [e|[]].
  - rewrite Hshape. reflexivity.
  - destruct Hshape as (rd & _ & ->). reflexivity.
Qed.

(** With both alert thresholds resolved, a call pushes the reading of a
    well-formed message and nothing else. *)
Lemma window_after_message (message : string) (window_size : Z) (w : world)
    (high low : float) :
  fst (get_heart_rate_threshold_high w) = inr high ->
  fst (get_heart_rate_threshold_low w) = inr low ->
  rolling_window (snd (process_message message window_size w)) =
    match heart_rate_of message with
    | Some hr => deque_append (rolling_window w) hr
    | None => rolling_window w
    end.
Proof.
  intros Hh Hl. rewrite window_by_alert. unfold heart_rate_of.
  destruct (json_loads message) as [e|data]; [reflexivity |].
  destruct (py_get data "heart_rate") as [e|hr]; [reflexivity |].
  destruct (py_get data "timestamp") as [e|ts]; [reflexivity |].
  destruct (is_None hr || is_None ts); [reflexivity |].
  destruct (is_number hr) eqn:Hnum.
  - rewrite (alert_returns_on_number w hr high low Hnum Hh Hl). reflexivity.
  - destruct (alert_frame w hr) as (_ & _ & Himp).
    destruct (fst (alert_on_heart_rate_anomaly hr w)) as [e|[]]; [reflexivity |].
    rewrite (Himp eq_refl) in Hnum. discriminate.
Qed.

Lemma pushes_app (d : deque) (xs ys : list pyval) :
  pushes d (xs ++ ys) = pushes (pushes d xs) ys.
Proof. unfold pushes. apply fold_left_app. Qed.

Lemma consume_step (message : kafka_message) (rest : list kafka_message)
    (window_size : Z) (w : world) :
  consume (message :: rest) window_size w
  = consume rest window_size
      (snd (process_message (value message) window_size
              (logged w [(DEBUG, Received_message (offset message) (value message))]))).
Proof.
  cbn [consume]. cbv zeta. rewrite bind_logger.
  destruct (process_message_keeps (value message) window_size
              (logged w [(DEBUG, Received_message (offset message) (value message))]))
    as (Hfst & _).
  destruct (process_message (value message) window_size
              (logged w [(DEBUG, Received_message (offset message) (value message))]))
    as [r w1] eqn:Hrun.
  simpl in Hfst. subst r. rewrite (bind_ok _ _ _ _ _ _ _ Hrun). reflexivity.
Qed.

(** Over a feed, with the thresholds resolved: the window is pushed the
    readings of the well-formed messages, in order of delivery. *)
Lemma consume_window (feed : list kafka_message) (window_size : Z)
    (high low : float) :
  forall w,
  fst (get_heart_rate_threshold_high w) = inr high ->
  fst (get_heart_rate_threshold_low w) = inr low ->
  rolling_window (snd (consume feed window_size w))
  = pushes (rolling_window w) (readings_of feed).
Proof.
  induction feed as [|message rest IH]; intros w Hh Hl; [reflexivity |].
  rewrite consume_step.
  set (w0 := logged w [(DEBUG, Received_message (offset message) (value message))]).
  assert (Hh0 : fst (get_heart_rate_threshold_high w0) = inr high)
    by (rewrite <- Hh; apply get_heart_rate_threshold_high_env; reflexivity).
  assert (Hl0 : fst (get_heart_rate_threshold_low w0) = inr low)
    by (rewrite <- Hl; apply get_heart_rate_threshold_low_env; reflexivity).
  destruct (process_message_keeps (value message) window_size w0)
    as (_ & Henv & _).
  rewrite IH.
  - rewrite (window_after_message _ _ w0 high low Hh0 Hl0).
    cbn [readings_of flat_map]. fold (readings_of rest).
    rewrite pushes_app.
    destruct (heart_rate_of (value message)); reflexivity.
  - rewrite <- Hh0. apply get_heart_rate_threshold_high_env. exact Henv.
  - rewrite <- Hl0. apply get_heart_rate_threshold_low_env. exact Henv.
Qed.

Lemma in_deque_append (d : deque) (x v : pyval) :
  In v (items (deque_append d x)) -> In v (items d) \/ v = x.
Proof.
  assert (H : In v (items d ++ [x]) -> In v (items d) \/ v = x).
  { intros Hin. apply in_app_or in Hin.
    destruct Hin as [Hin | [<- | []]]; auto. }
  assert (Htl : In v (tl (items d ++ [x])) -> In v (items d ++ [x])).
  { destruct (items d ++ [x]); simpl; auto. }
  unfold deque_append. destruct (maxlen d) as [n|]; [| exact H].
  destruct (n <? _)%nat; simpl; auto.
Qed.

(** Over a feed, whatever the thresholds: the window keeps its bound,
    stays a window of numbers, and gains only readings of well-formed
    messages of the feed. *)
Lemma consume_invariant (feed : list kafka_message) (window_size : Z) (n : nat) :
  forall w,
  bounded_by n (rolling_window w) ->
  all_numbers (rolling_window w) ->
  bounded_by n (rolling_window (snd (consume feed window_size w))) /\
  all_numbers (rolling_window (snd (consume feed window_size w))) /\
  forall v, In v (items (rolling_window (snd (consume feed window_size w)))) ->
    In v (items (rolling_window w)) \/ In v (readings_of feed).
Proof.
  induction feed as [|message rest IH]; intros w Hb Hnum.
  { simpl. auto. }
  rewrite consume_step.
  set (w0 := logged w [(DEBUG, Received_message (offset message) (value message))]).
  destruct (process_message_outcome (value message) window_size w0)
    as (w1 & records & Hrun & Hw1).
  rewrite Hrun. cbn [snd].
  cbn [readings_of flat_map]. fold (readings_of rest).
  destruct Hw1 as [-> | (hr & Hacc & ->)].
  - destruct (IH (logged w0 records) Hb Hnum) as (H1 & H2 & H3).
    split; [exact H1 |]. split; [exact H2 |].
    intros v Hv. destruct (H3 v Hv) as [Hin | Hin]; [left; exact Hin |].
    right. apply in_or_app. right. exact Hin.
  - assert (Hhr : heart_rate_of (value message) = Some hr)
      by (apply accepted_heart_rate_of; exact Hacc).
    assert (Hnumhr : is_number hr = true)
      by (destruct Hacc as (? & ? & _ & _ & _ & _ & _ & H); exact H).
    destruct (IH (logged (pushed w0 hr) records)) as (H1 & H2 & H3).
    + apply deque_append_bounded. exact Hb.
    + apply deque_append_numbers; assumption.
    + split; [exact H1 |]. split; [exact H2 |].
      intros v Hv. rewrite Hhr.
      destruct (H3 v Hv) as [Hin | Hin].
      * apply in_deque_append in Hin. destruct Hin as [Hin | ->].
        -- left. exact Hin.
        -- right. left. reflexivity.
      * right. right. exact Hin.
Qed.

Lemma received_of_app (xs ys : list log_record) :
  received_of (xs ++ ys) = received_of xs ++ received_of ys.
Proof. unfold received_of. apply flat_map_app. Qed.

Lemma message_records_tell_no_delivery (records : list log_record) :
  Forall (fun r => is_message_record r = true) records ->
  received_of records = [].
Proof.
  induction 1 as [|[lv t] rest Hr _ IH]; [reflexivity |].
  cbn [received_of flat_map]. fold (received_of rest). rewrite IH.
  destruct t; try reflexivity. discriminate.
Qed.

(** Over a feed: every delivery is logged, in order, and nothing else is
    logged as one. *)
Lemma consume_received (feed : list kafka_message) (window_size : Z) :
  forall w,
  received_of (sink (snd (consume feed window_size w)))
  = received_of (sink w) ++ feed.
Proof.
  induction feed as [|message rest IH]; intros w.
  { simpl. rewrite app_nil_r. reflexivity. }
  rewrite consume_step, IH.
  destruct (process_message_records (value message) window_size
              (logged w [(DEBUG, Received_message (offset message) (value message))]))
    as (records & -> & Hall).
  cbn [sink logged]. rewrite !received_of_app.
  rewrite (message_records_tell_no_delivery records Hall), app_nil_r.
  rewrite <- app_assoc. destruct message. reflexivity.
Qed.

(** Over a feed the log only grows. *)
Lemma consume_sink_grows (feed : list kafka_message) (window_size : Z) :
  forall w, exists records,
    sink (snd (consume feed window_size w)) = sink w ++ records.
Proof.
  induction feed as [|message rest IH]; intros w.
  { exists []. simpl. rewrite app_nil_r. reflexivity. }
  rewrite consume_step.
  destruct (IH (snd (process_message (value message) window_size
                       (logged w [(DEBUG, Received_message (offset message)
                                            (value message))]))))
    as (records & ->).
  destruct (process_message_records (value message) window_size
              (logged w [(DEBUG, Received_message (offset message) (value message))]))
    as (records' & -> & _).
  cbn [sink logged].
  exists ([(DEBUG, Received_message (offset message) (value message))]
          ++ records' ++ records).
  rewrite <- !app_assoc. reflexivity.
Qed.

End WindowContents.

(** ** Whole runs of [main] *)

Section Runs.

Context {B : Builtins}.

(** [main] up to the window size. *)
Lemma main_prologue (feed : list kafka_message) (w : world) :
  exists topic group_id,
    main feed w =
      bind get_rolling_window_size
        (fun window_size =>
           bind (logger INFO (Consumer_topic_group topic group_id))
             (fun _ =>
                bind (logger INFO (Rolling_window_size window_size))
                  (fun _ =>
                     bind (lift (deque_new window_size))
                       (fun d =>
                          bind (set_rolling_window d)
                            (fun _ =>
                               bind (logger INFO (Polling_messages topic))
                                 (fun _ =>
                                    bind
                                      (try_except (consume feed window_size)
                                         [ (isinstance_Exception,
                                            fun e => logger ERROR
                                                       (Error_while_consuming e)) ])
                                      (fun _ =>
                                         logger INFO (Consumer_closed topic))))))))
        (logged w [(INFO, START_consumer); (INFO, Kafka_topic topic);
                   (INFO, Kafka_consumer_group_id group_id)]).
Proof.
  unfold main. rewrite bind_logger.
  destruct (get_kafka_topic_run (logged w [(INFO, START_consumer)]))
    as (topic & Htopic).
  rewrite (bind_ok _ _ _ _ _ _ _ Htopic), logged_logged.
  match goal with
  | |- context [bind get_kafka_consumer_group_id ?k ?w1] =>
      destruct (get_kafka_consumer_group_id_run w1) as (group_id & Hgroup)
  end.
  rewrite (bind_ok _ _ _ _ _ _ _ Hgroup), logged_logged.
  exists topic, group_id. reflexivity.
Qed.

(** [main] with a usable window size: the startup records, the loop on
    the new empty window, the closing record. *)
Lemma main_run (feed : list kafka_message) (w : world) (n : Z) :
  fst (get_rolling_window_size w) = inr n ->
  0 <= n < 2 ^ 63 ->
  exists topic group_id,
    main feed w =
      (inr tt,
       logged
         (snd (consume feed n
                 (mkworld (os_environ w) (mkdeque [] (Some (Z.to_nat n)))
                          (sink w ++ startup_records topic group_id n))))
         [(INFO, Consumer_closed topic)]).
Proof.
  intros Hn Hpos.
  destruct (main_prologue feed w) as (topic & group_id & ->).
  exists topic, group_id.
  match goal with
  | |- context [bind get_rolling_window_size ?k ?w1] =>
      assert (Hn' : fst (get_rolling_window_size w1) = inr n)
        by (rewrite <- Hn; apply get_rolling_window_size_env; reflexivity);
      rewrite (bind_ok _ _ _ _ _ _ _ (get_rolling_window_size_ok w1 n Hn'))
  end.
  rewrite logged_logged, bind_logger, logged_logged.
  rewrite bind_logger, logged_logged, bind_lift.
  rewrite (deque_new_ok n Hpos).
  unfold bind at 1, set_rolling_window at 1.
  rewrite bind_logger.
  match goal with
  | |- context [bind (try_except (consume feed n) ?h) ?k ?w1] =>
      destruct (consume_keeps feed n w1) as (Hfst & _);
      assert (Htry : try_except (consume feed n) h w1
                     = (inr tt, snd (consume feed n w1)))
        by (unfold try_except;
            destruct (consume feed n w1) as [[e|[]] w2];
            simpl in Hfst; [discriminate | reflexivity]);
      rewrite (bind_ok _ _ _ _ _ _ _ Htry)
  end.
  rewrite logger_run. unfold logged, startup_records. cbn.
  rewrite <- ?app_assoc. reflexivity.
Qed.

End Runs.

(** With both alert thresholds resolved, [process_message] returns and
    pushes onto the window exactly when the message is well formed (it
    decodes to an object with a [timestamp] and a number for
    [heart_rate]), and then it pushes that [heart_rate]; what the stall
    check does afterwards does not matter. *)
Theorem pushes_exactly_the_well_formed {B : Builtins}
    (message : string) (window_size : Z) (w : world) (high low : float) :
  fst (get_heart_rate_threshold_high w) = inr high ->
  fst (get_heart_rate_threshold_low w) = inr low ->
  fst (process_message message window_size w) = inr tt /\
  rolling_window (snd (process_message message window_size w)) =
    match heart_rate_of message with
    | Some heart_rate => deque_append (rolling_window w) heart_rate
    | None => rolling_window w
    end.
Proof.
  intros Hh Hl. split.
  - apply (process_message_keeps message window_size w).
  - apply (window_after_message message window_size w high low Hh Hl).
Qed.

(** A reading is pushed, an integer reading too; a text is not. *)
Lemma pushes_exactly_the_well_formed_witness :
  items (rolling_window (snd (process_message (B := lite) spike 5 world_warm)))
    = [F 70; F 130] /\
  items (rolling_window (snd (process_message (B := lite) huge_reading 5 world_warm)))
    = [F 70; PInt (10 ^ 400)] /\
  items (rolling_window (snd (process_message (B := lite) not_a_number 5 world_warm)))
    = [F 70].
Proof.
  split; [| split].
  - rewrite (proj2 (pushes_exactly_the_well_formed (B := lite) spike 5 world_warm
                      (Z2float 120) (Z2float 40) eq_refl eq_refl)).
    vm_compute. reflexivity.
  - rewrite (proj2 (pushes_exactly_the_well_formed (B := lite) huge_reading 5
                      world_warm (Z2float 120) (Z2float 40) eq_refl eq_refl)).
    vm_compute. reflexivity.
  - rewrite (proj2 (pushes_exactly_the_well_formed (B := lite) not_a_number 5
                      world_warm (Z2float 120) (Z2float 40) eq_refl eq_refl)).
    vm_compute. reflexivity.
Defined.

(** When an alert threshold cannot be resolved, no message changes the
    window: a message with both fields ends in the record of the getter's
    exception, any other is dropped as always. *)
Theorem unresolved_threshold_blocks_the_window {B : Builtins}
    (message : string) (window_size : Z) (w : world) (e : exn) :
  fst (get_heart_rate_threshold_high w) = inl e \/
  (exists high, fst (get_heart_rate_threshold_high w) = inr high /\
                fst (get_heart_rate_threshold_low w) = inl e) ->
  rolling_window (snd (process_message message window_size w)) = rolling_window w /\
  (forall data heart_rate timestamp,
     json_loads message = inr data ->
     py_get data "heart_rate" = inr heart_rate ->
     py_get data "timestamp" = inr timestamp ->
     is_None heart_rate || is_None timestamp = false ->
     exists records,
       sink (snd (process_message message window_size w))
       = sink w ++ records ++ [handler_record message e]).
Proof.
  intros Hbad.
  assert (Halert : forall hr, fst (alert_on_heart_rate_anomaly hr w) = inl e).
  { intros hr. destruct Hbad as [Hh | (high & Hh & Hl)].
    - apply alert_raises_without_high. exact Hh.
    - apply (alert_raises_without_low w hr high e Hh Hl). }
  split.
  - rewrite window_by_alert.
    destruct (json_loads message) as [e'|data]; [reflexivity |].
    destruct (py_get data "heart_rate") as [e'|hr]; [reflexivity |].
    destruct (py_get data "timestamp") as [e'|ts]; [reflexivity |].
    destruct (is_None hr || is_None ts); [reflexivity |].
    rewrite Halert. reflexivity.
  - intros data hr ts H1 H2 H3 H4.
    destruct (run_valid_shape message window_size w data hr ts H1 H2 H3 H4)
      as (ra & _ & Hshape).
    rewrite Halert in Hshape. rewrite Hshape. cbn [snd sink logged].
    eexists. rewrite <- app_assoc. reflexivity.
Qed.

(** The high threshold set to the text [high]. *)
Lemma unresolved_threshold_blocks_the_window_witness :
  rolling_window (snd (process_message (B := lite) spike 5 world_bad_high))
    = short_window.
Proof.
  apply (proj1 (unresolved_threshold_blocks_the_window (B := lite)
                  spike 5 world_bad_high ValueError (or_introl eq_refl))).
Defined.

(** The two checks read the environment and write the log, nothing else:
    they leave the window and the environment as they are, every record
    they write is one of theirs, and what they return and write is the
    same in any two worlds with the same environment, whatever was logged
    or is in the window of the world. *)
Theorem checks_read_and_log {B : Builtins}
    (heart_rate : pyval) (d : deque) (w w' : world) :
  os_environ w' = os_environ w ->
  (exists records,
     alert_on_heart_rate_anomaly heart_rate w
       = (fst (alert_on_heart_rate_anomaly heart_rate w), logged w records) /\
     alert_on_heart_rate_anomaly heart_rate w'
       = (fst (alert_on_heart_rate_anomaly heart_rate w), logged w' records) /\
     Forall (fun r => is_check_record r = true) records) /\
  (exists records,
     detect_stall d w = (fst (detect_stall d w), logged w records) /\
     detect_stall d w' = (fst (detect_stall d w), logged w' records) /\
     Forall (fun r => is_check_record r = true) records).
Proof.
  intros Henv. split.
  - apply (alert_same heart_rate w w' Henv).
  - apply (detect_stall_same d w w' Henv).
Qed.

(** The stall check of the spiked window in the fresh world and in the
    world that already holds a window and, after a call, a log. *)
Lemma checks_read_and_log_witness :
  fst (detect_stall (B := lite) spiked_window
         (snd (process_message (B := lite) spike 5 world_warm)))
  = fst (detect_stall (B := lite) spiked_window world0).
Proof.
  destruct (checks_read_and_log (B := lite) (F 70) spiked_window world0
              (snd (process_message (B := lite) spike 5 world_warm)) eq_refl)
    as (_ & records & _ & H & _).
  rewrite H. reflexivity.
Defined.

(** A run of [main] with the window size resolved to a capacity the deque
    takes, [0 <= n < 2^63], and both alert thresholds resolved: when the
    feed ends, the window holds the last [n] readings of the well-formed
    messages of the feed, in order of delivery, however many messages
    were dropped in between and whatever the stall checks did. *)
Theorem window_holds_the_last_readings {B : Builtins}
    (feed : list kafka_message) (w : world) (n : Z) (high low : float) :
  fst (get_rolling_window_size w) = inr n ->
  0 <= n < 2 ^ 63 ->
  fst (get_heart_rate_threshold_high w) = inr high ->
  fst (get_heart_rate_threshold_low w) = inr low ->
  items (rolling_window (snd (main feed w))) =
    skipn (List.length (readings_of feed) - Z.to_nat n) (readings_of feed).
Proof.
  intros Hn Hpos Hh Hl.
  destruct (main_run feed w n Hn Hpos) as (topic & group_id & ->).
  cbn [snd rolling_window logged].
  rewrite (consume_window feed n high low).
  - cbn [rolling_window].
    rewrite (pushes_items (Z.to_nat n) (readings_of feed) _
               (empty_bounded (Z.to_nat n))).
    reflexivity.
  - rewrite <- Hh. apply get_heart_rate_threshold_high_env. reflexivity.
  - rewrite <- Hl. apply get_heart_rate_threshold_low_env. reflexivity.
Qed.

(** Five deliveries, two of them dropped, into a window of five; and six
    readings into a window of five. *)
Lemma window_holds_the_last_readings_witness :
  items (rolling_window (snd (main (B := lite) mixed_feed world0)))
    = [F 70; F 71; F 72] /\
  items (rolling_window (snd (main (B := lite) spiked_feed world0)))
    = [F 71; F 72; F 70; F 71; F 130].
Proof.
  split.
  - rewrite (window_holds_the_last_readings (B := lite) mixed_feed world0 5
               (Z2float 120) (Z2float 40) eq_refl ltac:(lia)
               eq_refl eq_refl).
    vm_compute. reflexivity.
  - rewrite (window_holds_the_last_readings (B := lite) spiked_feed world0 5
               (Z2float 120) (Z2float 40) eq_refl ltac:(lia)
               eq_refl eq_refl).
    vm_compute. reflexivity.
Defined.

(** A run of [main] with the window size resolved to a capacity the deque
    takes, [0 <= n < 2^63], whatever else the environment holds: when the
    feed ends, the window has capacity [n] and at most [n] items, all of
    them numbers, and each of them the reading of a well-formed message
    of the feed. *)
Theorem window_of_a_run {B : Builtins}
    (feed : list kafka_message) (w : world) (n : Z) :
  fst (get_rolling_window_size w) = inr n ->
  0 <= n < 2 ^ 63 ->
  let d := rolling_window (snd (main feed w)) in
  bounded_by (Z.to_nat n) d /\
  all_numbers d /\
  (forall v, In v (items d) -> In v (readings_of feed)).
Proof.
  intros Hn Hpos d. unfold d.
  destruct (main_run feed w n Hn Hpos) as (topic & group_id & ->).
  cbn [snd rolling_window logged].
  match goal with
  | |- context [consume feed n ?w0] =>
      destruct (consume_invariant feed n (Z.to_nat n) w0) as (H1 & H2 & H3)
  end.
  - apply empty_bounded.
  - constructor.
  - split; [exact H1 |]. split; [exact H2 |].
    intros v Hv. destruct (H3 v Hv) as [[] | Hin]. exact Hin.
Qed.

(** The mixed feed with an unusable high threshold and a window of
    five. *)
Lemma window_of_a_run_witness :
  bounded_by 5 (rolling_window (snd (main (B := lite) mixed_feed world_bad_high))).
Proof.
  exact (proj1 (window_of_a_run (B := lite) mixed_feed world_bad_high 5
                  eq_refl ltac:(lia))).
Defined.

(** A run of [main] with the window size resolved to a capacity the deque
    takes, [0 <= n < 2^63], handles every message of the feed: it returns
    when the feed ends, the log tells of each delivery, once and in
    order, with its offset and text, whatever the messages are, and the
    last record is that the consumer was closed. *)
Theorem every_message_is_received {B : Builtins}
    (feed : list kafka_message) (w : world) (n : Z) :
  fst (get_rolling_window_size w) = inr n ->
  0 <= n < 2 ^ 63 ->
  fst (main feed w) = inr tt /\
  received_of (sink (snd (main feed w))) = received_of (sink w) ++ feed /\
  exists topic records,
    sink (snd (main feed w)) = sink w ++ records ++ [(INFO, Consumer_closed topic)].
Proof.
  intros Hn Hpos.
  destruct (main_run feed w n Hn Hpos) as (topic & group_id & ->).
  cbn [fst snd sink logged].
  split; [reflexivity |].
  match goal with
  | |- context [consume feed n ?w0] =>
      pose proof (consume_received feed n w0) as Hrec;
      destruct (consume_sink_grows feed n w0) as (records & Hsink)
  end.
  split.
  - rewrite received_of_app, Hrec. cbn [sink].
    rewrite received_of_app. cbn. rewrite !app_nil_r. reflexivity.
  - exists topic, (startup_records topic group_id n ++ records).
    rewrite Hsink. cbn [sink]. rewrite <- !app_assoc. reflexivity.
Qed.

(** The mixed feed, delivered from offset 7 on. *)
Lemma every_message_is_received_witness :
  received_of (sink (snd (main (B := lite) mixed_feed world0))) = mixed_feed.
Proof.
  apply (proj1 (proj2 (every_message_is_received (B := lite) mixed_feed world0 5
                         eq_refl ltac:(lia)))).
Defined.

(** [main] does not start on a window size it cannot use.  When the
    getter raises (the text of the variable is no integer) [main] raises
    the same exception after its first three records.  When the size is
    resolved but the deque does not take it, creating the deque raises
    after three more records: [ValueError] for a negative size that fits
    a C [ssize_t], [OverflowError] for a size that does not fit,
    [n < -2^63] or [n >= 2^63].  In all these cases no message is
    received, the window of the world is not touched, and the closing
    record is not written. *)
Theorem unusable_window_size_stops_main {B : Builtins}
    (feed : list kafka_message) (w : world) :
  (forall e, fst (get_rolling_window_size w) = inl e ->
     exists topic group_id,
       main feed w =
         (inl e, logged w [(INFO, START_consumer); (INFO, Kafka_topic topic);
                           (INFO, Kafka_consumer_group_id group_id)])) /\
  (forall n, fst (get_rolling_window_size w) = inr n -> n < 0 \/ 2 ^ 63 <= n ->
     exists topic group_id,
       main feed w =
         (inl (if (n <? - 2 ^ 63) || (2 ^ 63 <=? n)
               then OverflowError else ValueError),
          logged w [(INFO, START_consumer); (INFO, Kafka_topic topic);
                    (INFO, Kafka_consumer_group_id group_id);
                    (INFO, Rolling_window_size n);
                    (INFO, Consumer_topic_group topic group_id);
                    (INFO, Rolling_window_size n)])).
Proof.
  split.
  - intros e He.
    destruct (main_prologue feed w) as (topic & group_id & ->).
    exists topic, group_id.
    match goal with
    | |- context [bind get_rolling_window_size ?k ?w1] =>
        assert (He' : fst (get_rolling_window_size w1) = inl e)
          by (rewrite <- He; apply get_rolling_window_size_env; reflexivity);
        rewrite (bind_raises _ _ _ _ _ _ _
                   (get_rolling_window_size_raises w1 e He'))
    end.
    reflexivity.
  - intros n Hn Hbad.
    destruct (main_prologue feed w) as (topic & group_id & ->).
    exists topic, group_id.
    match goal with
    | |- context [bind get_rolling_window_size ?k ?w1] =>
        assert (Hn' : fst (get_rolling_window_size w1) = inr n)
          by (rewrite <- Hn; apply get_rolling_window_size_env; reflexivity);
        rewrite (bind_ok _ _ _ _ _ _ _ (get_rolling_window_size_ok w1 n Hn'))
    end.
    rewrite logged_logged, bind_logger, logged_logged.
    rewrite bind_logger, logged_logged, bind_lift.
    rewrite deque_new_cases.
    destruct ((n <? - 2 ^ 63) || (2 ^ 63 <=? n)) eqn:Hfit.
    + unfold logged. cbn [app os_environ rolling_window sink].
      rewrite <- ?app_assoc. reflexivity.
    + apply orb_false_iff in Hfit. destruct Hfit as [_ Hhi].
      destruct (Z.leb_spec (2 ^ 63) n) as [H | Hlt]; [discriminate |].
      destruct (Z.ltb_spec n 0) as [_ | Hge]; [| lia].
      unfold logged. cbn [app os_environ rolling_window sink].
      rewrite <- ?app_assoc. reflexivity.
Qed.

(** The window size set to the text [five], to [-1], and to [2^63]. *)
Lemma unusable_window_size_stops_main_witness :
  fst (main (B := lite) calm_feed world_size_text) = inl ValueError /\
  fst (main (B := lite) calm_feed world_size_negative) = inl ValueError /\
  fst (main (B := lite) calm_feed world_size_huge) = inl OverflowError.
Proof.
  split; [| split].
  - destruct (proj1 (unusable_window_size_stops_main (B := lite)
                       calm_feed world_size_text) ValueError eq_refl)
      as (topic & group_id & ->).
    reflexivity.
  - destruct (proj2 (unusable_window_size_stops_main (B := lite)
                       calm_feed world_size_negative) (-1) eq_refl
                ltac:(lia))
      as (topic & group_id & ->).
    reflexivity.
  - destruct (proj2 (unusable_window_size_stops_main (B := lite)
                       calm_feed world_size_huge) (2 ^ 63) eq_refl
                ltac:(lia))
      as (topic & group_id & ->).
    reflexivity.
Defined.

(** ** The stall check, as a function of window and environment *)

Section StallResult.

Context {B : Builtins}.

(** What the stall check returns: the steps of the source, in order, the
    first exception ending them. *)
Lemma detect_stall_result (d : deque) (w : world) :
  fst (detect_stall d w) =
    rbind (fst (get_rolling_window_size w))
      (fun n =>
         if len d <? n then inr false
         else
           rbind (py_max (items d))
             (fun hi =>
                rbind (py_min (items d))
                  (fun lo =>
                     rbind (py_sub hi lo)
                       (fun hr_range =>
                          rbind (fst (get_stall_threshold w))
                            (fun threshold =>
                               rbind (py_richcmp OpLe hr_range (PFloat threshold))
                                 (fun is_stalled =>
                                    rbind (py_format hr_range)
                                      (fun _ => inr is_stalled))))))).
Proof.
  unfold detect_stall.
  destruct (fst (get_rolling_window_size w)) as [e|n] eqn:Hn.
  { rewrite (bind_raises _ _ _ _ _ _ _ (get_rolling_window_size_raises w e Hn)).
    reflexivity. }
  rewrite (bind_ok _ _ _ _ _ _ _ (get_rolling_window_size_ok w n Hn)).
  cbn [rbind]. destruct (len d <? n); cbv beta iota; [reflexivity |].
  rewrite bind_lift.
  destruct (py_max (items d)) as [e|hi]; cbn [rbind]; [reflexivity |].
  rewrite bind_lift.
  destruct (py_min (items d)) as [e|lo]; cbn [rbind]; [reflexivity |].
  rewrite bind_lift.
  destruct (py_sub hi lo) as [e|r]; cbn [rbind]; [reflexivity |].
  assert (Henv : fst (get_stall_threshold (logged w [(INFO, Rolling_window_size n)]))
                 = fst (get_stall_threshold w))
    by (apply get_stall_threshold_env; reflexivity).
  destruct (fst (get_stall_threshold w)) as [e|t] eqn:Ht.
  { rewrite (bind_raises _ _ _ _ _ _ _ (get_stall_threshold_raises _ e Henv)).
    reflexivity. }
  rewrite (bind_ok _ _ _ _ _ _ _ (get_stall_threshold_ok _ t Henv)).
  rewrite bind_lift. cbn [rbind].
  destruct (py_richcmp OpLe r (PFloat t)) as [e|c]; cbn [rbind]; [reflexivity |].
  rewrite bind_lift.
  destruct (py_format r) as [e|[]]; reflexivity.
Qed.

Lemma xltb_irrefl (x : xnum) : xltb x x = false.
Proof.
  unfold xltb. destruct x; simpl; try reflexivity.
  rewrite (proj1 (Qeq_alt q q) (Qeq_refl q)). reflexivity.
Qed.

(** [max] and [min] of copies of one float are that float. *)
Lemma select_repeat (op : cmpop) (f : float) (k : nat) :
  op = OpGt \/ op = OpLt ->
  py_select op (PFloat f) (repeat (PFloat f) k) = inr (PFloat f).
Proof.
  intros Hop. induction k as [|k IH]; [reflexivity |].
  cbn [repeat py_select]. rewrite richcmp_float. cbn [num_value rbind].
  destruct Hop as [-> | ->]; cbn [xnum_cmp];
    rewrite xltb_irrefl; exact IH.
Qed.

(** A float minus itself: zero when it is finite, a NaN otherwise. *)
Lemma sub_self (f : float) :
  xnum_of_float (SFsub prec emax f f) =
    match f with
    | S754_finite _ _ _ | S754_zero _ => XFin 0
    | _ => XNaN
    end.
Proof.
  destruct f as [s|s| |s m e];
    [destruct s; reflexivity | destruct s; reflexivity | reflexivity |].
  unfold SFsub. cbv zeta. rewrite Z.sub_diag. reflexivity.
Qed.

End StallResult.

(** A sensor stuck at one value.  On a window made of copies of one float
    that holds at least the configured number of readings, the stall
    check says [True] when the float is finite and the threshold is not
    negative; a window stuck at an infinity or a NaN (which [json.loads]
    reads from [Infinity] and [NaN]) is never stalled, its range being a
    NaN. *)
Theorem stuck_sensor {B : Builtins}
    (w : world) (d : deque) (f : float) (k : nat) (n : Z) (threshold : float) :
  items d = repeat (PFloat f) (S k) ->
  fst (get_rolling_window_size w) = inr n ->
  fst (get_stall_threshold w) = inr threshold ->
  n <= len d ->
  fst (detect_stall d w) =
    inr (match f with
         | S754_finite _ _ _ | S754_zero _ =>
             xleb (XFin 0) (xnum_of_float threshold)
         | _ => false
         end).
Proof.
  intros Hitems Hn Ht Hfull.
  rewrite detect_stall_result, Hn, Ht. cbn [rbind].
  destruct (Z.ltb_spec (len d) n) as [Hlt | _]; [lia |].
  rewrite Hitems. cbn [repeat py_max py_min].
  rewrite (select_repeat OpGt f k (or_introl eq_refl)).
  rewrite (select_repeat OpLt f k (or_intror eq_refl)).
  cbn [rbind py_sub]. rewrite richcmp_float.
  cbn [num_value xnum_cmp rbind py_format].
  rewrite sub_self.
  destruct f as [s|s| |s m e]; reflexivity.
Qed.

(** Five readings of 70.0 with the default threshold; five infinities. *)
Lemma stuck_sensor_witness :
  fst (detect_stall (B := lite)
         (mkdeque (repeat (F 70) 5) (Some 5%nat)) world0) = inr true /\
  fst (detect_stall (B := lite)
         (mkdeque (repeat (PFloat (S754_infinity false)) 5) (Some 5%nat)) world0)
    = inr false.
Proof.
  split.
  - rewrite (stuck_sensor (B := lite) world0 (mkdeque (repeat (F 70) 5) (Some 5%nat))
               (Z2float 70) 4 5 (Z2float 5) eq_refl eq_refl eq_refl
               ltac:(vm_compute; discriminate)).
    reflexivity.
  - rewrite (stuck_sensor (B := lite) world0
               (mkdeque (repeat (PFloat (S754_infinity false)) 5) (Some 5%nat))
               (S754_infinity false) 4 5 (Z2float 5) eq_refl eq_refl eq_refl
               ltac:(vm_compute; discriminate)).
    reflexivity.
Defined.

(** Raising the stall threshold never loses a stall: a window that is
    stalled in one environment is stalled in every environment with the
    same window size and a threshold at least as large. *)
Theorem larger_threshold_keeps_the_stall {B : Builtins}
    (d : deque) (w w' : world) (n : Z) (t t' : float) :
  fst (get_rolling_window_size w) = inr n ->
  fst (get_rolling_window_size w') = inr n ->
  fst (get_stall_threshold w) = inr t ->
  fst (get_stall_threshold w') = inr t' ->
  py_richcmp OpLe (PFloat t) (PFloat t') = inr true ->
  fst (detect_stall d w) = inr true ->
  fst (detect_stall d w') = inr true.
Proof.
  intros Hn Hn' Ht Ht' Hle.
  rewrite !detect_stall_result, Hn, Hn', Ht, Ht'. cbn [rbind].
  destruct (len d <? n); [discriminate |].
  destruct (py_max (items d)) as [e|hi]; cbn [rbind]; [discriminate |].
  destruct (py_min (items d)) as [e|lo]; cbn [rbind]; [discriminate |].
  destruct (py_sub hi lo) as [e|r]; cbn [rbind]; [discriminate |].
  rewrite !richcmp_float.
  destruct (num_value r) as [x|]; [| discriminate].
  cbn [xnum_cmp rbind].
  destruct (py_format r) as [e|[]]; [discriminate |].
  intros [= Hx]. simpl in Hle. injection Hle as Hle.
  rewrite (xleb_trans _ _ _ Hx Hle). reflexivity.
Qed.

(** The calm window, stalled at threshold 5, is stalled at threshold
    200. *)
Lemma larger_threshold_keeps_the_stall_witness :
  fst (detect_stall (B := lite)
         (mkdeque [F 70; F 71; F 72; F 70; F 71] (Some 5%nat))
         (mkworld [("HEART_STALL_THRESHOLD_BPM", "200")] (mkdeque [] None) []))
  = inr true.
Proof.
  apply (larger_threshold_keeps_the_stall (B := lite)
           (mkdeque [F 70; F 71; F 72; F 70; F 71] (Some 5%nat))
           world0
           (mkworld [("HEART_STALL_THRESHOLD_BPM", "200")] (mkdeque [] None) [])
           5 (Z2float 5) (Z2float 200));
    vm_compute; reflexivity.
Defined.

(** A window size of zero or less.  The stall check on an empty window
    raises [ValueError], [max] having nothing to choose from; so with the
    deque of capacity 0 that [main] creates for size 0, a well-formed
    message whose alert check returns is not retained, no stall is
    reported, and the call ends with the record of that [ValueError]. *)
Theorem empty_window_raises {B : Builtins} (w : world) (n : Z) :
  fst (get_rolling_window_size w) = inr n ->
  n <= 0 ->
  (forall d, items d = [] ->
     detect_stall d w = (inl ValueError, logged w [(INFO, Rolling_window_size n)])) /\
  (rolling_window w = mkdeque [] (Some 0%nat) ->
   forall message window_size heart_rate,
     heart_rate_of message = Some heart_rate ->
     fst (alert_on_heart_rate_anomaly heart_rate w) = inr tt ->
     exists records,
       Forall (fun r => is_stall_report r = false) records /\
       process_message message window_size w
       = (inr tt,
          logged w (records
                    ++ [(ERROR, Error_processing_message message ValueError)]))).
Proof.
  intros Hn Hle.
  assert (Hd : forall d, items d = [] ->
                 detect_stall d w
                 = (inl ValueError, logged w [(INFO, Rolling_window_size n)])).
  { intros d Hd. unfold detect_stall.
    rewrite (bind_ok _ _ _ _ _ _ _ (get_rolling_window_size_ok w n Hn)).
    unfold len. rewrite Hd. cbn [List.length Z.of_nat].
    destruct (Z.ltb_spec 0 n) as [Hlt | _]; [lia |].
    rewrite bind_lift. reflexivity. }
  split; [exact Hd |].
  intros Hwin message window_size hr Hhr Ha.
  apply accepted_heart_rate_of in Hhr.
  destruct Hhr as (data & ts & H1 & H2 & H3 & Hn1 & Hn2 & _).
  assert (H4 : is_None hr || is_None ts = false) by (rewrite Hn1, Hn2; reflexivity).
  destruct (run_valid_shape message window_size w data hr ts H1 H2 H3 H4)
    as (ra & Hra & Hshape).
  rewrite Ha in Hshape. destruct Hshape as (rd & Hrd & ->).
  assert (Hpush : deque_append (rolling_window w) hr = rolling_window w)
    by (rewrite Hwin; reflexivity).
  assert (Hw : pushed w hr = w)
    by (unfold pushed; rewrite Hpush; destruct w; reflexivity).
  rewrite Hw, Hpush, (Hd (rolling_window w)) by (rewrite Hwin; reflexivity).
  cbn [fst verdict_records handler_record isinstance_JSONDecodeError].
  exists ([(DEBUG, Raw_message message); (INFO, Processed_JSON_message data)]
          ++ ra ++ rd).
  split.
  - repeat (apply Forall_app; split).
    + repeat constructor.
    + revert Hra. apply Forall_impl. exact check_is_no_stall_report.
    + revert Hrd. apply Forall_impl. exact check_is_no_stall_report.
  - rewrite <- !app_assoc. reflexivity.
Qed.

(** The window size set to 0, a reading of 130. *)
Lemma empty_window_raises_witness :
  fst (detect_stall (B := lite) (mkdeque [] (Some 0%nat)) world_size_zero)
    = inl ValueError /\
  rolling_window (snd (process_message (B := lite) spike 0 world_size_zero))
    = mkdeque [] (Some 0%nat).
Proof.
  destruct (empty_window_raises (B := lite) world_size_zero 0 eq_refl
              ltac:(vm_compute; discriminate)) as (Hd & Hrun).
  split.
  - rewrite (Hd (mkdeque [] (Some 0%nat)) eq_refl). reflexivity.
  - destruct (Hrun eq_refl spike 0 (F 130) eq_refl eq_refl)
      as (records & _ & ->).
    reflexivity.
Defined.

(** * The window and the tunables over calls and runs *)

(** ** The bound of the window *)

Section WindowBound.

Context {B : Builtins}.

(** One call on a window of capacity [n]: the window is left as it was or
    appended to, stays within [n], and stays full when it was. *)
Lemma process_message_bounded (message : string) (window_size : Z) (w : world)
    (n : nat) :
  bounded_by n (rolling_window w) ->
  let after := rolling_window (snd (process_message message window_size w)) in
  (after = rolling_window w \/
   exists heart_rate, after = deque_append (rolling_window w) heart_rate) /\
  bounded_by n after /\
  (List.length (items (rolling_window w)) = n -> List.length (items after) = n).
Proof.
  intros Hb. cbv zeta.
  destruct (process_message_outcome message window_size w)
    as (w' & records & -> & [-> | (hr & _ & ->)]); cbn [snd logged pushed rolling_window].
  - split; [left; reflexivity |]. split; [exact Hb | auto].
  - split; [right; exists hr; reflexivity |].
    split; [apply deque_append_bounded; exact Hb |].
    intros Hfull. rewrite (deque_append_length n _ hr Hb). lia.
Qed.

(** The same over a feed. *)
Lemma consume_bounded (feed : list kafka_message) (window_size : Z) (n : nat) :
  forall w,
  bounded_by n (rolling_window w) ->
  bounded_by n (rolling_window (snd (consume feed window_size w))) /\
  (List.length (items (rolling_window w)) = n ->
   List.length (items (rolling_window (snd (consume feed window_size w)))) = n).
Proof.
  induction feed as [|message rest IH]; intros w Hb.
  { simpl. auto. }
  rewrite consume_step.
  set (w0 := logged w [(DEBUG, Received_message (offset message) (value message))]).
  destruct (process_message_bounded (value message) window_size w0 n Hb)
    as (_ & Hb1 & Hfull1).
  destruct (IH _ Hb1) as (Hb2 & Hfull2).
  split; [exact Hb2 |].
  intros Hfull. apply Hfull2, Hfull1. exact Hfull.
Qed.

(** The loop over a feed delivered in two parts. *)
Lemma consume_app (feed more : list kafka_message) (window_size : Z) :
  forall w,
  consume (feed ++ more) window_size w
  = consume more window_size (snd (consume feed window_size w)).
Proof.
  induction feed as [|message rest IH]; intros w; [reflexivity |].
  rewrite <- app_comm_cons, !consume_step. apply IH.
Qed.

(** [main] with a usable window size, for all feeds at once: the topic
    and the group are those of the environment, whatever the feed. *)
Lemma main_runs (w : world) (n : Z) :
  fst (get_rolling_window_size w) = inr n ->
  0 <= n < 2 ^ 63 ->
  exists topic group_id, forall feed,
    main feed w =
      (inr tt,
       logged
         (snd (consume feed n
                 (mkworld (os_environ w) (mkdeque [] (Some (Z.to_nat n)))
                          (sink w ++ startup_records topic group_id n))))
         [(INFO, Consumer_closed topic)]).
Proof.
  intros Hn Hpos.
  destruct (get_kafka_topic_run (logged w [(INFO, START_consumer)]))
    as (topic & Htopic).
  destruct (get_kafka_consumer_group_id_run
              (logged (logged w [(INFO, START_consumer)]) [(INFO, Kafka_topic topic)]))
    as (group_id & Hgroup).
  exists topic, group_id. intros feed.
  unfold main. rewrite bind_logger.
  rewrite (bind_ok _ _ _ _ _ _ _ Htopic).
  rewrite (bind_ok _ _ _ _ _ _ _ Hgroup), !logged_logged.
  match goal with
  | |- context [bind get_rolling_window_size ?k ?w1] =>
      assert (Hn' : fst (get_rolling_window_size w1) = inr n)
        by (rewrite <- Hn; apply get_rolling_window_size_env; reflexivity);
      rewrite (bind_ok _ _ _ _ _ _ _ (get_rolling_window_size_ok w1 n Hn'))
  end.
  rewrite logged_logged, bind_logger, logged_logged.
  rewrite bind_logger, logged_logged, bind_lift.
  rewrite (deque_new_ok n Hpos).
  unfold bind at 1, set_rolling_window at 1.
  rewrite bind_logger.
  match goal with
  | |- context [bind (try_except (consume feed n) ?h) ?k ?w1] =>
      destruct (consume_keeps feed n w1) as (Hfst & _);
      assert (Htry : try_except (consume feed n) h w1
                     = (inr tt, snd (consume feed n w1)))
        by (unfold try_except;
            destruct (consume feed n w1) as [[e|[]] w2];
            simpl in Hfst; [discriminate | reflexivity]);
      rewrite (bind_ok _ _ _ _ _ _ _ Htry)
  end.
  rewrite logger_run. unfold logged, startup_records. cbn.
  rewrite <- ?app_assoc. reflexivity.
Qed.

End WindowBound.

(** C2 (window capacity invariant).  The window is the deque that [main]
    creates with [deque(maxlen=n)], which succeeds for a size the deque
    takes ([n < 2^63]), and on which [process_message] pushes with
    [append].  After any sequence of pushes such a deque holds at most [n]
    items, namely [min n (number of pushes)]; once it holds [n] items,
    every further push drops the oldest item, appends the new one, and
    leaves the size at [n], however many pushes follow.  In the program:
    a call of [process_message] on a window of capacity [n] leaves the
    window as it was or appends one value to it, keeps it within [n]
    items, and keeps a full window full; a run of [main] with the size
    resolved to [n] returns with a window of capacity [n] holding at most
    [n] items, after any feed, and a window that is full after a feed is
    full after every longer feed. *)
Theorem window_capacity_invariant {B : Builtins} (n : nat) (vs : list pyval) :
  let d := pushes (mkdeque [] (Some n)) vs in
  (Z.of_nat n < 2 ^ 63 -> deque_new (Z.of_nat n) = inr (mkdeque [] (Some n))) /\
  (List.length (items d) <= n)%nat /\
  List.length (items d) = Nat.min n (List.length vs) /\
  (List.length (items d) = n ->
   forall (v : pyval) (more : list pyval),
     items (deque_append d v) = tl (items d ++ [v]) /\
     List.length (items (deque_append d v)) = n /\
     List.length (items (pushes d (v :: more))) = n) /\
  (forall (message : string) (window_size : Z) (w : world),
     bounded_by n (rolling_window w) ->
     let after := rolling_window (snd (process_message message window_size w)) in
     (after = rolling_window w \/
      exists heart_rate, after = deque_append (rolling_window w) heart_rate) /\
     bounded_by n after /\
     (List.length (items (rolling_window w)) = n ->
      List.length (items after) = n)) /\
  (forall (feed more : list kafka_message) (w : world),
     fst (get_rolling_window_size w) = inr (Z.of_nat n) ->
     Z.of_nat n < 2 ^ 63 ->
     let after := rolling_window (snd (main feed w)) in
     fst (main feed w) = inr tt /\
     bounded_by n after /\
     (List.length (items after) = n ->
      List.length (items (rolling_window (snd (main (feed ++ more) w)))) = n)).
Proof.
  intros d.
  assert (Hb : bounded_by n d) by (apply pushes_bounded, empty_bounded).
  split; [apply deque_new_nat |].
  split; [apply Hb |].
  split.
  { unfold d. rewrite (pushes_length n vs _ (empty_bounded n)). reflexivity. }
  split.
  { intros Hfull v more.
    destruct (deque_append_items n d v Hb) as [Hi _].
    rewrite Hfull, Nat.ltb_irrefl in Hi.
    split; [exact Hi |].
    split.
    + rewrite (deque_append_length n d v Hb). lia.
    + rewrite (pushes_length n (v :: more) d Hb). simpl. lia. }
  split.
  { intros message window_size w Hw.
    apply process_message_bounded. exact Hw. }
  intros feed more w Hn Hfit. cbv zeta.
  destruct (main_runs w (Z.of_nat n) Hn ltac:(lia)) as (topic & group_id & Hmain).
  rewrite (Hmain feed), (Hmain (feed ++ more)).
  cbn [fst snd logged rolling_window]. rewrite consume_app, Nat2Z.id.
  split; [reflexivity |].
  match goal with
  | |- context [consume feed (Z.of_nat n) ?w0] =>
      destruct (consume_bounded feed (Z.of_nat n) n w0 (empty_bounded n))
        as (Hb1 & _);
      destruct (consume_bounded more (Z.of_nat n) n
                  (snd (consume feed (Z.of_nat n) w0)) Hb1) as (_ & Hfull2)
  end.
  split; [exact Hb1 | exact Hfull2].
Qed.

(** Capacity 2, pushes 1, 2, 3: the deque holds 2, 3; a fourth push leaves
    3, 4, and the size stays 2 over three more pushes.  In a run of
    [main] with the default size 5, the window is full after the five calm
    readings and still holds 5 readings after the spike. *)
Lemma window_capacity_invariant_witness :
  let d := pushes (mkdeque [] (Some 2%nat)) [PInt 1; PInt 2; PInt 3] in
  items d = [PInt 2; PInt 3] /\
  items (deque_append d (PInt 4)) = [PInt 3; PInt 4] /\
  List.length (items (pushes d [PInt 4; PInt 5; PInt 6])) = 2%nat /\
  List.length (items (rolling_window (snd (main (B := lite) spiked_feed world0))))
    = 5%nat.
Proof.
  destruct (window_capacity_invariant (B := lite) 2 [PInt 1; PInt 2; PInt 3])
    as (_ & _ & _ & H & _).
  destruct (H eq_refl (PInt 4) [PInt 5; PInt 6]) as (H1 & _ & H3).
  split; [reflexivity |].
  split; [exact H1 |]. split; [exact H3 |].
  destruct (window_capacity_invariant (B := lite) 5 [])
    as (_ & _ & _ & _ & _ & Hmain).
  destruct (Hmain calm_feed [delivery 5 spike] world0 eq_refl ltac:(lia))
    as (_ & _ & Hfull).
  apply Hfull. reflexivity.
Defined.

(** ** What a call resolves *)

Section Resolutions.

Context {B : Builtins}.

(** The records logged are read off the world. *)
Lemma logged_inj (w : world) (r1 r2 : list log_record) :
  logged w r1 = logged w r2 -> r1 = r2.
Proof.
  intros H. apply (f_equal sink) in H. simpl in H.
  apply app_inv_head in H. exact H.
Qed.

(** A validated message is one that took the path to the checks. *)
Lemma validated_some (message : string) (data heart_rate timestamp : pyval) :
  validated message = Some (data, heart_rate, timestamp) ->
  json_loads message = inr data /\
  py_get data "heart_rate" = inr heart_rate /\
  py_get data "timestamp" = inr timestamp /\
  is_None heart_rate || is_None timestamp = false.
Proof.
  unfold validated.
  destruct (json_loads message) as [e|d]; [discriminate |].
  destruct (py_get d "heart_rate") as [e|hr] eqn:H2; [discriminate |].
  destruct (py_get d "timestamp") as [e|ts] eqn:H3; [discriminate |].
  destruct (is_None hr || is_None ts) eqn:H4; [discriminate |].
  intros [= <- <- <-]. auto.
Qed.

(** The records of the [except] clauses and of the verdict tell no
    resolution. *)
Lemma handler_is_no_resolution (message : string) (e : exn) :
  is_resolution (handler_record message e) = false.
Proof.
  unfold handler_record. destruct (isinstance_JSONDecodeError e); reflexivity.
Qed.

Lemma verdict_resolves_nothing (message : string) (timestamp heart_rate : pyval)
    (window_size : Z) (verdict : result bool) :
  resolutions (verdict_records message timestamp heart_rate window_size verdict) = [].
Proof.
  destruct verdict as [e|[]]; try reflexivity.
  unfold resolutions. cbn [verdict_records filter].
  rewrite handler_is_no_resolution. reflexivity.
Qed.

(** A message dropped before the checks: what the call writes, with no
    resolution in it, the window as it was. *)
Lemma run_dropped (message : string) (window_size : Z) (w : world) :
  validated message = None ->
  exists records,
    process_message message window_size w = (inr tt, logged w records) /\
    resolutions records = [].
Proof.
  unfold validated. intros Hval.
  destruct (json_loads message) as [e|data] eqn:H1.
  { rewrite (run_undecodable message window_size w e H1).
    eexists. split; [reflexivity |].
    unfold resolutions. cbn [filter is_resolution].
    rewrite handler_is_no_resolution. reflexivity. }
  destruct (py_get data "heart_rate") as [e|hr] eqn:H2.
  { rewrite (run_not_an_object message window_size w data e H1 H2).
    eexists. split; [reflexivity |].
    unfold resolutions. cbn [filter is_resolution].
    rewrite handler_is_no_resolution. reflexivity. }
  destruct (get_after_get data "heart_rate" "timestamp" hr H2) as [ts H3].
  rewrite H3 in Hval.
  destruct (is_None hr || is_None ts) eqn:H4; [| discriminate].
  rewrite (run_invalid message window_size w data hr ts H1 H2 H3 H4).
  eexists. split; reflexivity.
Qed.

(** A validated message, with what the two checks write in the world of
    the call. *)
Lemma run_valid_records (message : string) (window_size : Z) (w : world)
    (data heart_rate timestamp : pyval) (alert_records : list log_record) :
  validated message = Some (data, heart_rate, timestamp) ->
  snd (alert_on_heart_rate_anomaly heart_rate w) = logged w alert_records ->
  match fst (alert_on_heart_rate_anomaly heart_rate w) with
  | inl e =>
      process_message message window_size w
      = (inr tt,
         logged w ([(DEBUG, Raw_message message);
                    (INFO, Processed_JSON_message data)]
                   ++ alert_records ++ [handler_record message e]))
  | inr _ =>
      forall stall_records,
        snd (detect_stall (deque_append (rolling_window w) heart_rate) w)
          = logged w stall_records ->
        process_message message window_size w
        = (inr tt,
           logged (pushed w heart_rate)
             ([(DEBUG, Raw_message message);
               (INFO, Processed_JSON_message data)]
              ++ alert_records ++ stall_records
              ++ verdict_records message timestamp heart_rate window_size
                   (fst (detect_stall
                           (deque_append (rolling_window w) heart_rate) w))))
  end.
Proof.
  intros Hval Hra.
  destruct (validated_some _ _ _ _ Hval) as (H1 & H2 & H3 & H4).
  rewrite (run_valid message window_size w data heart_rate timestamp H1 H2 H3 H4).
  set (w1 := logged w [(DEBUG, Raw_message message);
                       (INFO, Processed_JSON_message data)]).
  destruct (alert_same heart_rate w w1 eq_refl) as (ra & Ha0 & Ha & _).
  rewrite Ha0 in Hra. cbn [snd] in Hra. apply logged_inj in Hra. subst ra.
  clear Ha0.
  destruct (fst (alert_on_heart_rate_anomaly heart_rate w)) as [e|[]].
  - rewrite (bind_raises _ _ _ _ _ _ _ Ha). unfold caught, w1.
    rewrite !logged_logged, <- ?app_assoc. reflexivity.
  - intros rd Hrd.
    rewrite (bind_ok _ _ _ _ _ _ _ Ha). unfold w1.
    rewrite logged_logged.
    unfold bind at 1. rewrite rolling_window_append_run.
    unfold bind at 1, the_rolling_window at 1.
    cbn [rolling_window logged pushed].
    set (d := deque_append (rolling_window w) heart_rate) in *.
    match goal with
    | |- context [bind (detect_stall d) ?k ?w3] =>
        destruct (detect_stall_same d w w3 eq_refl) as (rd0 & Hd0 & Hd & _)
    end.
    rewrite Hd0 in Hrd. cbn [snd] in Hrd. apply logged_inj in Hrd. subst rd0.
    clear Hd0.
    destruct (fst (detect_stall d w)) as [e|stalled].
    + rewrite (bind_raises _ _ _ _ _ _ _ Hd). unfold caught, logged, pushed.
      cbn. rewrite <- ?app_assoc. reflexivity.
    + rewrite (bind_ok _ _ _ _ _ _ _ Hd).
      destruct stalled; cbv beta iota.
      * rewrite logger_run. unfold caught, logged, pushed.
        cbn. rewrite <- ?app_assoc. reflexivity.
      * unfold ret, caught, logged, pushed. cbn.
        rewrite <- ?app_assoc, ?app_nil_r. reflexivity.
Qed.

(** What a stall check resolves: the window size, always and first; the
    stall threshold only once the window holds enough readings and their
    range has a value. *)
Lemma detect_stall_resolves (d : deque) (w : world) (n : Z) :
  fst (get_rolling_window_size w) = inr n ->
  exists tail,
    snd (detect_stall d w) = logged w ((INFO, Rolling_window_size n) :: tail) /\
    (resolutions tail = [] \/
     exists t, fst (get_stall_threshold w) = inr t /\
               resolutions tail = [(INFO, Max_stall_variation t)]) /\
    (len d < n -> tail = [(DEBUG, Waiting_for (len d) n)]) /\
    (forall hi lo hr_range t,
       n <= len d ->
       py_max (items d) = inr hi -> py_min (items d) = inr lo ->
       py_sub hi lo = inr hr_range ->
       fst (get_stall_threshold w) = inr t ->
       resolutions tail = [(INFO, Max_stall_variation t)]).
Proof.
  intros Hn. unfold detect_stall.
  rewrite (bind_ok _ _ _ _ _ _ _ (get_rolling_window_size_ok w n Hn)).
  destruct (Z.ltb_spec (len d) n) as [Hlt | Hge].
  { rewrite bind_logger, logged_logged.
    exists [(DEBUG, Waiting_for (len d) n)].
    split; [reflexivity |]. split; [left; reflexivity |].
    split; [reflexivity | intros; lia]. }
  rewrite bind_lift. destruct (py_max (items d)) as [e|hi] eqn:Hmax.
  { exists []. split; [reflexivity |]. split; [left; reflexivity |].
    split; [intros; lia | intros; discriminate]. }
  rewrite bind_lift. destruct (py_min (items d)) as [e|lo] eqn:Hmin.
  { exists []. split; [reflexivity |]. split; [left; reflexivity |].
    split; [intros; lia | intros; discriminate]. }
  rewrite bind_lift. destruct (py_sub hi lo) as [e|hr_range] eqn:Hsub.
  { exists []. split; [reflexivity |]. split; [left; reflexivity |].
    split; [intros; lia | intros; congruence]. }
  assert (Henv : fst (get_stall_threshold (logged w [(INFO, Rolling_window_size n)]))
                 = fst (get_stall_threshold w))
    by (apply get_stall_threshold_env; reflexivity).
  destruct (fst (get_stall_threshold w)) as [e|t] eqn:Ht.
  { rewrite (bind_raises _ _ _ _ _ _ _ (get_stall_threshold_raises _ e Henv)).
    exists []. split; [reflexivity |]. split; [left; reflexivity |].
    split; [intros; lia | intros; discriminate]. }
  rewrite (bind_ok _ _ _ _ _ _ _ (get_stall_threshold_ok _ t Henv)).
  rewrite logged_logged, bind_lift.
  assert (Hmore : forall more,
            Forall (fun r => fst r = DEBUG) more ->
            resolutions ((INFO, Max_stall_variation t) :: more)
            = [(INFO, Max_stall_variation t)]).
  { intros more Hall. unfold resolutions. cbn [filter is_resolution].
    f_equal. induction Hall as [|[lv tm] rest Hr _ IH]; [reflexivity |].
    simpl in Hr. subst lv. cbn [filter is_resolution]. exact IH. }
  destruct (py_richcmp OpLe hr_range (PFloat t)) as [e|c].
  { exists [(INFO, Max_stall_variation t)].
    split; [reflexivity |]. split; [right; exists t; auto |].
    split; [intros; lia |]. intros ? ? ? t' _ _ _ _ [= <-]. reflexivity. }
  rewrite bind_lift. destruct (py_format hr_range) as [e|[]].
  { exists [(INFO, Max_stall_variation t)].
    split; [reflexivity |]. split; [right; exists t; auto |].
    split; [intros; lia |]. intros ? ? ? t' _ _ _ _ [= <-]. reflexivity. }
  rewrite bind_logger, logged_logged.
  exists [(INFO, Max_stall_variation t); (DEBUG, Heart_rate_range hr_range c)].
  split; [reflexivity |]. split; [right; exists t; auto |].
  split; [intros; lia |]. intros ? ? ? t' _ _ _ _ [= <-]. reflexivity.
Qed.

(** With both thresholds resolved, the alert check writes the two
    resolutions first, whatever its argument, and resolves nothing else. *)
Lemma alert_resolves (w : world) (v : pyval) (high low : float) :
  fst (get_heart_rate_threshold_high w) = inr high ->
  fst (get_heart_rate_threshold_low w) = inr low ->
  exists rest,
    snd (alert_on_heart_rate_anomaly v w)
    = logged w ([(INFO, High_threshold high); (INFO, Low_threshold low)] ++ rest) /\
    resolutions rest = [].
Proof.
  intros Hh Hl. unfold alert_on_heart_rate_anomaly.
  rewrite (bind_ok _ _ _ _ _ _ _ (get_heart_rate_threshold_high_ok w high Hh)).
  assert (Hl' : fst (get_heart_rate_threshold_low
                       (logged w [(INFO, High_threshold high)])) = inr low).
  { rewrite <- Hl. apply get_heart_rate_threshold_low_env. reflexivity. }
  rewrite (bind_ok _ _ _ _ _ _ _ (get_heart_rate_threshold_low_ok _ low Hl')).
  rewrite logged_logged, bind_lift.
  destruct (py_richcmp OpGt v (PFloat high)) as [e|above].
  { exists []. split; reflexivity. }
  destruct above; cbv beta iota.
  { rewrite logger_run, logged_logged. eexists. split; reflexivity. }
  rewrite bind_lift.
  destruct (py_richcmp OpLt v (PFloat low)) as [e|below].
  { exists []. split; reflexivity. }
  destruct below; cbv beta iota.
  - rewrite logger_run, logged_logged. eexists. split; reflexivity.
  - exists []. split; reflexivity.
Qed.

End Resolutions.

(** C9, amended.  The capacity of the window is fixed at startup, from
    the window size resolved then (a size the deque takes,
    [0 <= n < 2^63]), and no message changes it; the program never writes
    the environment, so after a run the four tunables resolve to what
    they resolved to before it.  Startup resolves the window size and
    nothing else: the thresholds are not resolved there.  They are
    resolved anew by the calls for the messages.  A message dropped before
    the checks (it does not decode, is no object, or lacks a field)
    resolves nothing.  A message that reaches the checks, in an
    environment where both alert thresholds resolve, resolves the high
    and the low threshold first.  When moreover its [heart_rate] is a
    number and the window size resolves, the alert is decided by the
    thresholds just resolved, the reading is pushed, and the stall check
    resolves the window size; what follows resolves at most the stall
    threshold: nothing while the window holds fewer readings than that
    size, and the stall threshold once the window holds that many, their
    range has a value and the threshold resolves. *)
Theorem tunables_follow_the_environment {B : Builtins}
    (feed : list kafka_message) (w : world) (n : Z) :
  fst (get_rolling_window_size w) = inr n ->
  0 <= n < 2 ^ 63 ->
  let w' := snd (main feed w) in
  fst (main feed w) = inr tt /\
  maxlen (rolling_window w') = Some (Z.to_nat n) /\
  os_environ w' = os_environ w /\
  fst (get_rolling_window_size w') = inr n /\
  fst (get_stall_threshold w') = fst (get_stall_threshold w) /\
  fst (get_heart_rate_threshold_high w') = fst (get_heart_rate_threshold_high w) /\
  fst (get_heart_rate_threshold_low w') = fst (get_heart_rate_threshold_low w) /\
  (exists topic group_id,
     sink (snd (main [] w))
     = sink w ++ startup_records topic group_id n ++ [(INFO, Consumer_closed topic)] /\
     resolutions (startup_records topic group_id n ++ [(INFO, Consumer_closed topic)])
     = [(INFO, Rolling_window_size n); (INFO, Rolling_window_size n)]) /\
  (forall message window_size w1,
     os_environ (snd (process_message message window_size w1)) = os_environ w1 /\
     maxlen (rolling_window (snd (process_message message window_size w1)))
       = maxlen (rolling_window w1)) /\
  (forall message window_size w1,
     validated message = None ->
     exists records,
       process_message message window_size w1 = (inr tt, logged w1 records) /\
       resolutions records = []) /\
  (forall message window_size w1 data heart_rate timestamp high low,
     validated message = Some (data, heart_rate, timestamp) ->
     fst (get_heart_rate_threshold_high w1) = inr high ->
     fst (get_heart_rate_threshold_low w1) = inr low ->
     exists rest,
       sink (snd (process_message message window_size w1)) =
         sink w1
         ++ [(DEBUG, Raw_message message); (INFO, Processed_JSON_message data);
             (INFO, High_threshold high); (INFO, Low_threshold low)]
         ++ rest) /\
  (forall message window_size w1 data heart_rate timestamp x high low size,
     validated message = Some (data, heart_rate, timestamp) ->
     num_value heart_rate = Some x ->
     fst (get_heart_rate_threshold_high w1) = inr high ->
     fst (get_heart_rate_threshold_low w1) = inr low ->
     fst (get_rolling_window_size w1) = inr size ->
     let d := deque_append (rolling_window w1) heart_rate in
     exists tail,
       process_message message window_size w1 =
         (inr tt,
          logged (pushed w1 heart_rate)
            ([(DEBUG, Raw_message message); (INFO, Processed_JSON_message data);
              (INFO, High_threshold high); (INFO, Low_threshold low)]
             ++ emitted (level_for (xltb (xnum_of_float high) x)
                                   (xltb x (xnum_of_float low))) heart_rate
             ++ [(INFO, Rolling_window_size size)] ++ tail)) /\
       (resolutions tail = [] \/
        exists t, fst (get_stall_threshold w1) = inr t /\
                  resolutions tail = [(INFO, Max_stall_variation t)]) /\
       (len d < size -> tail = [(DEBUG, Waiting_for (len d) size)]) /\
       (forall hi lo hr_range t,
          size <= len d ->
          py_max (items d) = inr hi -> py_min (items d) = inr lo ->
          py_sub hi lo = inr hr_range ->
          fst (get_stall_threshold w1) = inr t ->
          resolutions tail = [(INFO, Max_stall_variation t)])).
Proof.
  intros Hn Hpos w'.
  destruct (main_keeps feed w n Hn Hpos) as (Hfst & Henv & Hmax).
  fold w' in Henv, Hmax.
  split; [exact Hfst |]. split; [exact Hmax |]. split; [exact Henv |].
  split; [rewrite <- Hn; apply get_rolling_window_size_env; exact Henv |].
  split; [apply get_stall_threshold_env; exact Henv |].
  split; [apply get_heart_rate_threshold_high_env; exact Henv |].
  split; [apply get_heart_rate_threshold_low_env; exact Henv |].
  split.
  { destruct (main_runs w n Hn Hpos) as (topic & group_id & Hmain).
    exists topic, group_id. rewrite (Hmain []).
    cbn [consume ret snd logged sink]. rewrite <- app_assoc.
    split; reflexivity. }
  split.
  { intros message window_size w1.
    apply (process_message_keeps message window_size w1). }
  split.
  { intros message window_size w1. apply run_dropped. }
  split.
  { intros message window_size w1 data hr ts high low Hval Hh Hl.
    destruct (alert_resolves w1 hr high low Hh Hl) as (rest & Hsnd & _).
    pose proof (run_valid_records message window_size w1 data hr ts _ Hval Hsnd)
      as Hrun.
    destruct (fst (alert_on_heart_rate_anomaly hr w1)) as [e|[]].
    - rewrite Hrun. cbn [snd logged sink app]. rewrite <- ?app_assoc.
      eexists. reflexivity.
    - destruct (detect_stall_frame (deque_append (rolling_window w1) hr) w1)
        as (rd & Hrd).
      rewrite (Hrun rd Hrd). cbn [snd logged pushed sink app].
      rewrite <- ?app_assoc. eexists. reflexivity. }
  intros message window_size w1 data hr ts x high low size Hval Hx Hh Hl Hsize d.
  pose proof (alert_run w1 hr x high low Hx Hh Hl) as Ha.
  pose proof (run_valid_records message window_size w1 data hr ts _ Hval
                (f_equal snd Ha)) as Hrun.
  rewrite Ha in Hrun. cbn [fst] in Hrun.
  destruct (detect_stall_resolves d w1 size Hsize)
    as (tail & Hsnd & Hres & Hwait & Hfull).
  specialize (Hrun _ Hsnd). fold d in Hrun.
  exists (tail ++ verdict_records message ts hr window_size (fst (detect_stall d w1))).
  split.
  { rewrite Hrun. cbn [app]. rewrite <- ?app_assoc. reflexivity. }
  assert (Hverdict : forall records,
            resolutions (records ++ verdict_records message ts hr window_size
                                      (fst (detect_stall d w1)))
            = resolutions records).
  { intros records. unfold resolutions. rewrite filter_app.
    fold (resolutions (verdict_records message ts hr window_size
                         (fst (detect_stall d w1)))).
    rewrite verdict_resolves_nothing. apply app_nil_r. }
  split.
  { rewrite Hverdict. exact Hres. }
  split.
  { intros Hlt. rewrite (Hwait Hlt).
    unfold detect_stall.
    rewrite (bind_ok _ _ _ _ _ _ _ (get_rolling_window_size_ok w1 size Hsize)).
    destruct (Z.ltb_spec (len d) size) as [_ | Hge]; [| lia].
    reflexivity. }
  intros hi lo hr_range t Hge Hhi Hlo Hsub Ht.
  rewrite Hverdict. exact (Hfull hi lo hr_range t Hge Hhi Hlo Hsub Ht).
Qed.

(** A run of six messages in the environment with swapped thresholds:
    the capacity is 5 and the high threshold still resolves to 40.  One
    call in the environment with the high threshold set to 200 resolves
    high 200, low 40 and window size 5. *)
Lemma tunables_follow_the_environment_witness :
  maxlen (rolling_window (snd (main (B := lite) spiked_feed world_swapped)))
    = Some 5%nat /\
  fst (get_heart_rate_threshold_high (B := lite)
         (snd (main (B := lite) spiked_feed world_swapped)))
    = inr (Z2float 40) /\
  resolutions (sink (snd (process_message (B := lite) spike 5 world_high_200)))
    = [(INFO, High_threshold (Z2float 200)); (INFO, Low_threshold (Z2float 40));
       (INFO, Rolling_window_size 5)].
Proof.
  destruct (tunables_follow_the_environment (B := lite)
              spiked_feed world_swapped 5 eq_refl ltac:(lia))
    as (_ & Hmax & _ & _ & _ & Hhigh & _ & _ & _ & _ & _ & Hmsg).
  split; [exact Hmax |]. split; [exact Hhigh |].
  destruct (Hmsg spike 5 world_high_200
              (PDict [("timestamp", PStr t6); ("heart_rate", F 130)])
              (F 130) (PStr t6) (xnum_of_float (Z2float 130))
              (Z2float 200) (Z2float 40) 5
              eq_refl eq_refl eq_refl eq_refl eq_refl)
    as (tail & -> & _ & Hwait & _).
  rewrite (Hwait ltac:(vm_compute; reflexivity)). reflexivity.
Defined.

(** C10, amended.  Every call of [process_message] returns.  A message
    that fails before the push leaves the window as it was: a message
    dropped before the checks (it does not decode, its payload has no
    [get], or a field is [None]), a [heart_rate] that is not a number, an
    alert check that raises.  Otherwise, that is when the message reaches
    the checks and the alert check returns, the [heart_rate] is a number
    and is pushed; and when stall detection then raises, the exception is
    caught and logged after the push, the reading staying in the window.
    So a window of numbers stays a window of numbers. *)
Theorem failures_and_the_window {B : Builtins}
    (message : string) (window_size : Z) (w : world) :
  let out := process_message message window_size w in
  fst out = inr tt /\
  (rolling_window (snd out) = rolling_window w \/
   exists heart_rate,
     accepted message heart_rate /\
     rolling_window (snd out) = deque_append (rolling_window w) heart_rate) /\
  (validated message = None -> rolling_window (snd out) = rolling_window w) /\
  (forall data e, json_loads message = inr data ->
     py_get data "heart_rate" = inl e ->
     rolling_window (snd out) = rolling_window w) /\
  (forall data heart_rate, json_loads message = inr data ->
     py_get data "heart_rate" = inr heart_rate ->
     is_number heart_rate = false ->
     rolling_window (snd out) = rolling_window w) /\
  (forall data heart_rate timestamp e,
     validated message = Some (data, heart_rate, timestamp) ->
     fst (alert_on_heart_rate_anomaly heart_rate w) = inl e ->
     rolling_window (snd out) = rolling_window w) /\
  (forall data heart_rate timestamp,
     validated message = Some (data, heart_rate, timestamp) ->
     fst (alert_on_heart_rate_anomaly heart_rate w) = inr tt ->
     is_number heart_rate = true /\
     rolling_window (snd out) = deque_append (rolling_window w) heart_rate /\
     forall e,
       fst (detect_stall (deque_append (rolling_window w) heart_rate) w) = inl e ->
       exists records,
         sink (snd out) = sink w ++ records ++ [handler_record message e]) /\
  (all_numbers (rolling_window w) -> all_numbers (rolling_window (snd out))).
Proof.
  cbv zeta.
  split; [apply (process_message_keeps message window_size w) |].
  split.
  { destruct (process_message_outcome message window_size w)
      as (w' & records & -> & [-> | (hr & Hacc & ->)]); simpl.
    - left. reflexivity.
    - right. exists hr. split; [exact Hacc | reflexivity]. }
  split.
  { intros Hval. destruct (run_dropped message window_size w Hval) as (records & -> & _).
    reflexivity. }
  split.
  { intros data e H1 H2.
    rewrite (run_not_an_object message window_size w data e H1 H2). reflexivity. }
  split.
  { intros data hr H1 H2 Hnot. rewrite window_by_alert, H1, H2.
    destruct (py_get data "timestamp") as [e|ts]; [reflexivity |].
    destruct (is_None hr || is_None ts); [reflexivity |].
    destruct (alert_frame w hr) as (_ & _ & Himp).
    destruct (fst (alert_on_heart_rate_anomaly hr w)) as [e|[]]; [reflexivity |].
    rewrite (Himp eq_refl) in Hnot. discriminate. }
  split.
  { intros data hr ts e Hval Ha.
    destruct (validated_some _ _ _ _ Hval) as (H1 & H2 & H3 & H4).
    rewrite window_by_alert, H1, H2, H3, H4, Ha. reflexivity. }
  split.
  { intros data hr ts Hval Ha.
    destruct (validated_some _ _ _ _ Hval) as (H1 & H2 & H3 & H4).
    split.
    { destruct (alert_frame w hr) as (_ & _ & Himp). exact (Himp Ha). }
    split.
    { rewrite window_by_alert, H1, H2, H3, H4, Ha. reflexivity. }
    intros e He.
    destruct (run_valid_shape message window_size w data hr ts H1 H2 H3 H4)
      as (ra & _ & Hshape).
    rewrite Ha in Hshape. destruct Hshape as (rd & _ & ->).
    rewrite He. cbn [verdict_records snd logged pushed sink].
    exists ([(DEBUG, Raw_message message); (INFO, Processed_JSON_message data)]
            ++ ra ++ rd).
    rewrite <- ?app_assoc. reflexivity. }
  intros Hall.
  destruct (process_message_outcome message window_size w)
    as (w' & records & -> & [-> | (hr & Hacc & ->)]); simpl; [exact Hall |].
  apply deque_append_numbers; [exact Hall |].
  destruct Hacc as (data & ts & _ & _ & _ & _ & _ & Hnum). exact Hnum.
Qed.

(** The payload [42], the [heart_rate] ["fast"] and an unusable high
    threshold leave a window holding one reading as it was; an accepted
    reading is pushed on it. *)
Lemma failures_and_the_window_witness :
  rolling_window (snd (process_message (B := lite) not_an_object 5 world_warm))
    = short_window /\
  rolling_window (snd (process_message (B := lite) not_a_number 5 world_warm))
    = short_window /\
  rolling_window (snd (process_message (B := lite) spike 5 world_bad_high))
    = short_window /\
  rolling_window (snd (process_message (B := lite) spike 5 world_warm))
    = mkdeque [F 70; F 130] (Some 5%nat).
Proof.
  split; [| split; [| split]].
  - apply (proj1 (proj2 (proj2 (proj2 (failures_and_the_window (B := lite)
                                         not_an_object 5 world_warm))))
             (PInt 42) AttributeError);
      vm_compute; reflexivity.
  - apply (proj1 (proj2 (proj2 (proj2 (proj2 (failures_and_the_window (B := lite)
                                                not_a_number 5 world_warm)))))
             (PDict [("timestamp", PStr t1); ("heart_rate", PStr "fast")])
             (PStr "fast"));
      vm_compute; reflexivity.
  - apply (proj1 (proj2 (proj2 (proj2 (proj2 (proj2
             (failures_and_the_window (B := lite) spike 5 world_bad_high))))))
             (PDict [("timestamp", PStr t6); ("heart_rate", F 130)])
             (F 130) (PStr t6) ValueError);
      vm_compute; reflexivity.
  - destruct (proj1 (proj2 (proj2 (proj2 (proj2 (proj2 (proj2
                (failures_and_the_window (B := lite) spike 5 world_warm)))))))
                (PDict [("timestamp", PStr t6); ("heart_rate", F 130)])
                (F 130) (PStr t6) eq_refl eq_refl) as (_ & -> & _).
    reflexivity.
Defined.
